(** * The "Bar" widget of vite-non-deterministic: dataset generator and view pipeline

    Shallow embedding of [src/Bar/index.tsx]: the grid generator
    ([generateRandomDate], [generateGrid]), the component state of [Bar]
    ([filteredCells], [page], [sortAsc]) with its three handlers
    ([handleFilter], [handleSortToggle], [handleScroll]), the derived values
    of a render ([visibleCells], [groupedRows]) and the numbers computed by
    [StatsSection].

    The host built-ins the component calls (numbers, [Date], [Array] methods,
    [Math.min]/[Math.max]) live in [Module JS]; the three date-fns helpers in
    [Module DateFns]; the component itself in [Module Bar]. *)

From Stdlib Require Import String Ascii DecimalString DecimalNat.
From Stdlib Require Import ZArith QArith Bool Lia Arith List.
From Stdlib Require Import Permutation Sorted.
From Equations Require Import Equations.
Import ListNotations.

Local Open Scope Z_scope.

(** ** Host built-ins *)

Module JS.

(** A JavaScript number as this component uses it: every finite number it
    computes is an integer (a count of milliseconds, a length, an index),
    next to the three non-finite values. *)
Inductive number : Type :=
| Num (z : Z)
| PosInf
| NegInf
| NaN.

(** [a < b] on numbers; any comparison with [NaN] is false. *)
Definition num_lt (a b : number) : bool :=
  match a, b with
  | NaN, _ | _, NaN => false
  | Num x, Num y => x <? y
  | _, NegInf => false
  | PosInf, _ => false
  | _, _ => true
  end.

(** [a <= b] and [a >= b]; again false as soon as one side is [NaN]. *)
Definition num_le (a b : number) : bool :=
  match a, b with
  | NaN, _ | _, NaN => false
  | Num x, Num y => x <=? y
  | NegInf, _ => true
  | _, PosInf => true
  | _, _ => false
  end.

Definition num_ge (a b : number) : bool := num_le b a.

(** [a - b].  A difference of two time values may exceed 2^53 and be rounded
    to a double; rounding keeps its sign, which is all the sort reads. *)
Definition num_sub (a b : number) : number :=
  match a, b with
  | NaN, _ | _, NaN => NaN
  | Num x, Num y => Num (x - y)
  | PosInf, PosInf | NegInf, NegInf => NaN
  | PosInf, _ => PosInf
  | NegInf, _ => NegInf
  | Num _, PosInf => NegInf
  | Num _, NegInf => PosInf
  end.

(** [Math.min(...l)]: starts from [+Infinity], any [NaN] argument makes the
    result [NaN]. *)
Definition Math_min (l : list number) : number :=
  fold_left
    (fun lowest x =>
       match lowest, x with
       | NaN, _ | _, NaN => NaN
       | _, _ => if num_lt x lowest then x else lowest
       end)
    l PosInf.

(** [Math.max(...l)]: starts from [-Infinity]. *)
Definition Math_max (l : list number) : number :=
  fold_left
    (fun highest x =>
       match highest, x with
       | NaN, _ | _, NaN => NaN
       | _, _ => if num_lt highest x then x else highest
       end)
    l NegInf.

(** *** Doubles

    The one place where the component computes with fractions is
    [Math.floor(Math.random() * n)].  A non-negative finite double is
    written [Float m e], the number [m * 2^e]; it is a double when
    [m < 2^53] and [-1074 <= e]. *)
Record double : Type := Float { mant : Z; expo : Z }.

(** [M * 2^e] rounded to 53 significant bits, to nearest, ties to even
    (for [0 <= M] and [-1074 <= e], where no underflow can occur). *)
Definition round53 (M e : Z) : double :=
  let sh := Z.log2 M + 1 - 53 in
  if sh <=? 0 then Float M e
  else
    let P := 2 ^ sh in
    let q := M / P in
    let rem := M mod P in
    let r := if 2 * rem <? P then q
             else if P <? 2 * rem then q + 1
             else if Z.even q then q else q + 1 in
    Float r (e + sh).

(** [x * n] for a double [x] and a positive integer [n] below [2^53]: the
    exact product, rounded. *)
Definition mul (x : double) (n : Z) : double :=
  round53 (mant x * n) (expo x).

(** [Math.floor(x)]. *)
Definition Math_floor (x : double) : Z :=
  if 0 <=? expo x then mant x * 2 ^ expo x else mant x / 2 ^ (- expo x).

(** *** Date *)

(** The largest time value a [Date] can hold, in milliseconds from the epoch
    (the smallest is its opposite). *)
Definition MAX_TIME : Z := 8640000000000000.

Definition TimeClip (v : number) : number :=
  match v with
  | Num t => if (Z.abs t <=? MAX_TIME) then Num t else NaN
  | _ => NaN
  end.

(** A [Date] object: a time value, or the Invalid Date. *)
Inductive Date : Type :=
| ValidDate (t : Z)
| InvalidDate.

Definition getTime (d : Date) : number :=
  match d with
  | ValidDate t => Num t
  | InvalidDate => NaN
  end.

(** [new Date(v)] for a number [v]. *)
Definition new_Date (v : number) : Date :=
  match TimeClip v with
  | Num t => ValidDate t
  | _ => InvalidDate
  end.

(** [d1 >= d2] and [d1 <= d2] on [Date] objects: both sides are converted to
    their time values and compared as numbers. *)
Definition Date_ge (d1 d2 : Date) : bool := num_ge (getTime d1) (getTime d2).
Definition Date_le (d1 d2 : Date) : bool := num_le (getTime d1) (getTime d2).

(** A time value that a [Date] built by [new_Date] can carry. *)
Definition time_value (t : Z) : Prop := - MAX_TIME <= t <= MAX_TIME.

(** *** Date.parse, date-only form

    [new Date(s)] on a string parses it with [Date.parse].  The formats
    [Date.parse] accepts beyond the standard ones depend on the engine, so
    the component is modelled over an arbitrary parser (a section variable
    of [Module Bar]).  [Date_parse_iso] is the one format an
    [<input type="date">] produces, [YYYY-MM-DD], read as midnight UTC of
    that day; every other string is not a date. *)

Definition msPerDay : Z := 86400000.

Definition digit (c : ascii) : option Z :=
  let n := nat_of_ascii c in
  if ((48 <=? n) && (n <=? 57))%nat then Some (Z.of_nat (n - 48)) else None.

Definition digits2 (a b : ascii) : option Z :=
  match digit a, digit b with
  | Some x, Some y => Some (10 * x + y)
  | _, _ => None
  end.

Definition digits4 (a b c d : ascii) : option Z :=
  match digits2 a b, digits2 c d with
  | Some x, Some y => Some (100 * x + y)
  | _, _ => None
  end.

Definition InLeapYear (y : Z) : bool :=
  ((y mod 4 =? 0) && negb (y mod 100 =? 0)) || (y mod 400 =? 0).

Definition DaysInMonth (y m : Z) : Z :=
  if m =? 2 then (if InLeapYear y then 29 else 28)
  else if (m =? 4) || (m =? 6) || (m =? 9) || (m =? 11) then 30
  else 31.

(** Day number of the first day of year [y], counted from 1 January 1970. *)
Definition DayFromYear (y : Z) : Z :=
  365 * (y - 1970) + (y - 1969) / 4 - (y - 1901) / 100 + (y - 1601) / 400.

(** Days of year [y] that precede its month [m] (from 1 to 12). *)
Fixpoint days_before (y : Z) (m : nat) : Z :=
  match m with
  | O | S O => 0
  | S m' => days_before y m' + DaysInMonth y (Z.of_nat m')
  end.

Definition MakeDay (y m d : Z) : Z :=
  DayFromYear y + days_before y (Z.to_nat m) + (d - 1).

Definition Date_parse_iso (s : string) : number :=
  match s with
  | String y1 (String y2 (String y3 (String y4 (String s1
      (String m1 (String m2 (String s2 (String d1 (String d2 EmptyString))))))))) =>
      if (Ascii.eqb s1 "-" && Ascii.eqb s2 "-")%char then
        match digits4 y1 y2 y3 y4, digits2 m1 m2, digits2 d1 d2 with
        | Some y, Some m, Some d =>
            if (1 <=? m) && (m <=? 12) && (1 <=? d) && (d <=? DaysInMonth y m)
            then Num (MakeDay y m d * msPerDay)
            else NaN
        | _, _, _ => NaN
        end
      else NaN
  | _ => NaN
  end.

(** *** Arrays *)

Section Arrays.
Context {A : Type}.

(** [a.slice(start, end)] for the non-negative integer indices the
    component passes ([0], [page * PAGE_SIZE], [i], [i + 10]): the items at
    positions [start <= k < min(end, a.length)]; an [end] beyond the length
    shortens the result. *)
Definition slice (start stop : nat) (a : list A) : list A :=
  firstn (stop - start) (skipn start a).

(** [a.flat()] on an array of arrays. *)
Definition flat (a : list (list A)) : list A := List.concat a.

(** [a.sort(cmp)] is a stable sort; its comparator returns a number, of
    which only the sign is used, and a [NaN] counts as [0].  [x] is moved
    behind [y] exactly when [cmp x y > 0].  The engine's algorithm is its
    own; with a comparator that orders by a key, every stable sort returns
    the same list ([JSFacts.sorted_stable_unique]), written here as an
    insertion sort. *)
Definition after (cmp : A -> A -> number) (x y : A) : bool :=
  num_lt (Num 0) (cmp x y).

Fixpoint insert (cmp : A -> A -> number) (x : A) (l : list A) : list A :=
  match l with
  | [] => [x]
  | y :: l' => if after cmp x y then y :: insert cmp x l' else x :: l
  end.

Fixpoint sort (cmp : A -> A -> number) (a : list A) : list A :=
  match a with
  | [] => []
  | x :: a' => insert cmp x (sort cmp a')
  end.
End Arrays.

End JS.

(** ** date-fns helpers

    [startOfDay] and [addDays] work on the local calendar: they read the
    local time of a date ([LocalTime]), change it, and turn the new local
    time back into a time value ([UTC]).  The local time zone is what the
    host knows of it: the offset from UTC in force at an instant, and the
    offset by which a local time is read (at a local time that a change of
    offset skips or repeats, the offset before the change). *)

Module DateFns.
Import JS.

Definition msPerMinute : Z := 60000.

Record TimeZone : Type := mkTimeZone {
  utc_offset : Z -> Z;
  local_offset : Z -> Z
}.

(** A zone that keeps one offset of [tz] milliseconds. *)
Definition fixed_zone (tz : Z) : TimeZone :=
  {| utc_offset := fun _ => tz; local_offset := fun _ => tz |}.

Definition LocalTime (tz : TimeZone) (t : Z) : Z := t + utc_offset tz t.

Definition UTC (tz : TimeZone) (t : Z) : Z := t - local_offset tz t.

(** [startOfDay(d)]: [setHours(0, 0, 0, 0)] on a copy, the midnight of the
    local day of [d]. *)
Definition startOfDay (tz : TimeZone) (d : Date) : Date :=
  match d with
  | ValidDate t => new_Date (Num (UTC tz (LocalTime tz t / msPerDay * msPerDay)))
  | InvalidDate => InvalidDate
  end.

(** [addDays(d, amount)]: [d] itself when [amount] is [0], else
    [setDate(getDate() + amount)] on a copy, the same local time of day
    [amount] calendar days later. *)
Definition addDays (tz : TimeZone) (d : Date) (amount : Z) : Date :=
  match d with
  | ValidDate t =>
      if amount =? 0 then d
      else new_Date (Num (UTC tz (LocalTime tz t + amount * msPerDay)))
  | InvalidDate => InvalidDate
  end.

(** [addMinutes(d, amount)]: [setTime(getTime() + amount * 60000)]. *)
Definition addMinutes (d : Date) (amount : Z) : Date :=
  match d with
  | ValidDate t => new_Date (Num (t + amount * msPerMinute))
  | InvalidDate => InvalidDate
  end.

End DateFns.

(** ** The component *)

Module Bar.
Import JS DateFns.

Record DateCell : Type := mkDateCell {
  id : string;
  timestamp : Date
}.

(** *** Utility functions *)

(** The random source: the successive results of [Math.random()]. *)
Definition rng : Type := nat -> double.

Definition Math_random (r : rng) : double * rng := (r O, fun i => r (S i)).

(** What [Math.random] guarantees of every draw: a double [u] with
    [0 <= u < 1]. *)
Definition unit_draws (r : rng) : Prop :=
  forall i,
    0 <= mant (r i) < 2 ^ 53
    /\ - 1074 <= expo (r i) <= 0
    /\ mant (r i) < 2 ^ (- expo (r i)).

(** The text of a non-negative integer in a template literal. *)
Definition string_of_nat (n : nat) : string :=
  NilEmpty.string_of_uint (Nat.to_uint n).

Section Generator.
Variable tz : TimeZone.

Definition generateRandomDate (baseDate : Date) (r : rng) : Date * rng :=
  let (u1, r1) := Math_random r in
  let randomDays := Math_floor (mul u1 365) in
  let (u2, r2) := Math_random r1 in
  let randomMinutes := Math_floor (mul u2 1440) in
  (addMinutes (addDays tz baseDate randomDays) randomMinutes, r2).

(** The inner loop of [generateGrid]: [n] columns are still to be filled,
    the next one is [col]. *)
Fixpoint fill_row (baseDate : Date) (row : nat) (n col : nat)
         (currentRow : list DateCell) (r : rng) : list DateCell * rng :=
  match n with
  | O => (currentRow, r)
  | S n' =>
      let (randomDate, r') := generateRandomDate baseDate r in
      fill_row baseDate row n' (S col)
        (currentRow ++
           [ {| id := string_of_nat row ++ "-" ++ string_of_nat col;
                timestamp := randomDate |} ])
        r'
  end.

(** The outer loop: [n] rows are still to be pushed, the next one is
    [row]. *)
Fixpoint fill_grid (baseDate : Date) (cols : nat) (n row : nat)
         (grid : list (list DateCell)) (r : rng)
  : list (list DateCell) * rng :=
  match n with
  | O => (grid, r)
  | S n' =>
      let (currentRow, r') := fill_row baseDate row cols O [] r in
      fill_grid baseDate cols n' (S row) (grid ++ [currentRow]) r'
  end.

(** [generateGrid(rows, cols)]; [now] is the clock reading of
    [new Date()], in milliseconds from the epoch. *)
Definition generateGrid (now : Z) (rows cols : nat) (r : rng)
  : list (list DateCell) * rng :=
  let baseDate := startOfDay tz (new_Date (Num now)) in
  fill_grid baseDate cols rows O [] r.
End Generator.

(** *** The values of the statistics *)

Record Stats : Type := mkStats {
  count : nat;
  minDate : Date;
  maxDate : Date
}.

(** The first three lines of [StatsSection], and the length it prints: the
    values the panel is built from.  The component itself, which formats
    them, is [View.StatsSection]. *)
Definition Stats_of (cells : list DateCell) : Stats :=
  let timestamps := map (fun c => getTime (timestamp c)) cells in
  {| count := List.length cells;
     minDate := new_Date (Math_min timestamps);
     maxDate := new_Date (Math_max timestamps) |}.

(** *** State of [Bar] and its handlers *)

Definition PAGE_SIZE : nat := 20.

Record BarState : Type := mkBarState {
  fullGrid : list (list DateCell);
  filteredCells : list DateCell;
  page : nat;
  sortAsc : bool
}.

Definition flatCells (st : BarState) : list DateCell := flat (fullGrid st).

(** The first render: nothing generated yet. *)
Definition mount : BarState :=
  {| fullGrid := []; filteredCells := []; page := 1%nat; sortAsc := true |}.

(** The effect of [useLargeGrid] stores the generated grid, and the effect
    on [fullGrid] then copies its cells into [filteredCells]. *)
Definition gridLoaded (grid : list (list DateCell)) (st : BarState) : BarState :=
  {| fullGrid := grid;
     filteredCells := flat grid;
     page := page st;
     sortAsc := sortAsc st |}.

(** The scroll container as [handleScroll] reads it. *)
Record Container : Type := mkContainer {
  scrollTop : Q;
  scrollHeight : Q;
  clientHeight : Q
}.

Section Handlers.
Variable Date_parse : string -> number.

(** [s ? a : b] on a string: only the empty string is falsy. *)
Definition truthy (s : string) : bool :=
  match s with EmptyString => false | _ => true end.

Definition handleFilter (start stop : string) (st : BarState) : BarState :=
  let startDate :=
    if truthy start then new_Date (Date_parse start) else new_Date (Num 0) in
  let endDate :=
    if truthy stop then new_Date (Date_parse stop)
    else new_Date (Num 8640000000000000) in
  let filtered :=
    filter (fun cell => Date_ge (timestamp cell) startDate
                        && Date_le (timestamp cell) endDate)
           (flatCells st) in
  {| fullGrid := fullGrid st;
     filteredCells := filtered;
     page := 1%nat;
     sortAsc := sortAsc st |}.

(** The comparator of [handleSortToggle]. *)
Definition compareCells (asc : bool) (a b : DateCell) : number :=
  if asc then num_sub (getTime (timestamp b)) (getTime (timestamp a))
  else num_sub (getTime (timestamp a)) (getTime (timestamp b)).

Definition handleSortToggle (st : BarState) : BarState :=
  let sorted := sort (compareCells (sortAsc st)) (filteredCells st) in
  {| fullGrid := fullGrid st;
     filteredCells := sorted;
     page := page st;
     sortAsc := negb (sortAsc st) |}.

(** [setPage((prev) => prev + 1)]. *)
Definition nextPage (st : BarState) : BarState :=
  {| fullGrid := fullGrid st;
     filteredCells := filteredCells st;
     page := (page st + 1)%nat;
     sortAsc := sortAsc st |}.

(** [containerRef.current] is [None] while the container is not mounted. *)
Definition handleScroll (current : option Container) (st : BarState) : BarState :=
  match current with
  | None => st
  | Some c =>
      if Qle_bool (scrollHeight c - 50) (scrollTop c + clientHeight c)
      then nextPage st
      else st
  end.

(** *** Values derived at each render *)

Definition visibleCells (st : BarState) : list DateCell :=
  slice 0 (page st * PAGE_SIZE) (filteredCells st).

(** The loop that builds [groupedRows], from index [i] on. *)
Equations? groupedRows_from (visible : list DateCell) (i : nat)
           (groupedRows : list (list DateCell))
  : list (list DateCell) by wf (List.length visible - i)%nat lt :=
  groupedRows_from visible i groupedRows with lt_dec i (List.length visible) => {
    | left _ =>
        groupedRows_from visible (i + 10)%nat
          (groupedRows ++ [slice i (i + 10) visible]);
    | right _ => groupedRows }.
Proof. lia. Qed.

Definition groupedRows (st : BarState) : list (list DateCell) :=
  groupedRows_from (visibleCells st) 0 [].

(** *** Events *)

Inductive Event : Type :=
| FilterSubmit (start stop : string)
| SortToggleClick
| Scroll (current : option Container).

Definition handle (e : Event) (st : BarState) : BarState :=
  match e with
  | FilterSubmit start stop => handleFilter start stop st
  | SortToggleClick => handleSortToggle st
  | Scroll current => handleScroll current st
  end.

Definition run (es : list Event) (st : BarState) : BarState :=
  fold_left (fun s e => handle e s) es st.
End Handlers.

End Bar.


(** ** Vocabulary of the statements *)

Module Spec.
Import JS DateFns Bar.

(** The comparator that orders by an integer key, smallest first. *)
Definition by_key {A : Type} (key : A -> Z) (x y : A) : number :=
  Num (key x - key y).

Definition key_le {A : Type} (key : A -> Z) (x y : A) : Prop :=
  key x <= key y.

(** The items of [l] whose key is [k], in the order of [l]. *)
Definition with_key {A : Type} (key : A -> Z) (k : Z) (l : list A) : list A :=
  filter (fun x => key x =? k) l.

(** A date that is valid and whose time value lies in [[lo, hi]]. *)
Definition in_interval (lo hi : Z) (d : Date) : Prop :=
  match d with
  | ValidDate t => lo <= t <= hi
  | InvalidDate => False
  end.

Definition in_intervalb (lo hi : Z) (d : Date) : bool :=
  match d with
  | ValidDate t => (lo <=? t) && (t <=? hi)
  | InvalidDate => false
  end.

(** A cell whose timestamp is a valid date. *)
Definition valid_cell (c : DateCell) : Prop :=
  in_interval (- MAX_TIME) MAX_TIME (timestamp c).

(** [a] is not later than [b]. *)
Definition time_le (a b : DateCell) : Prop :=
  match timestamp a, timestamp b with
  | ValidDate x, ValidDate y => x <= y
  | _, _ => False
  end.

Definition ascending (l : list DateCell) : Prop := StronglySorted time_le l.

Definition descending (l : list DateCell) : Prop :=
  StronglySorted (fun a b => time_le b a) l.

(** The order a click on the sort button produces when the flag is [asc]. *)
Definition toggled_order (asc : bool) (l : list DateCell) : Prop :=
  if asc then descending l else ascending l.

(** The time value of a valid cell. *)
Definition tv (c : DateCell) : Z :=
  match timestamp c with
  | ValidDate t => t
  | InvalidDate => 0
  end.

(** The bounds of a filter: an optional time value each.  A missing start
    stands for the epoch, a missing end for the last representable instant. *)
Definition lower (start : option Z) : Z :=
  match start with Some t => t | None => 0 end.

Definition upper (stop : option Z) : Z :=
  match stop with Some t => t | None => MAX_TIME end.

(** The text the filter panel submits for a bound: empty when there is none,
    else a text that parses to the bound's date. *)
Definition bound_text (Date_parse : string -> number) (b : option Z) (s : string) : Prop :=
  match b with
  | None => s = EmptyString
  | Some t => s <> EmptyString /\ Date_parse s = Num t /\ time_value t
  end.

(** The id [generateGrid] gives the cell at [row], [col]. *)
Definition cell_id (row col : nat) : string :=
  (string_of_nat row ++ "-" ++ string_of_nat col)%string.

Fixpoint digits_only (s : string) : bool :=
  match s with
  | EmptyString => true
  | String c s' =>
      match digit c with
      | Some _ => digits_only s'
      | None => false
      end
  end.

(** The offset by which a local time is read stays within [delta] of the
    offset in force at the instant [b], at the local time of [b] on each of
    the 364 days that follow. *)
Definition offset_drift (tz : TimeZone) (b delta : Z) : Prop :=
  forall d, 1 <= d <= 364 ->
            Z.abs (local_offset tz (LocalTime tz b + d * msPerDay) - utc_offset tz b) <= delta.


(** The key by which a click sorts when the flag is [asc]: latest first when
    the flag is set, earliest first otherwise. *)
Definition toggle_key (asc : bool) (c : DateCell) : Z :=
  if asc then - tv c else tv c.

End Spec.

(** ** Sample inputs *)

Module Samples.
Import JS DateFns Bar.

(** Random sources: every draw [0]; draws that run through the eighths
    [0, 5/8, 2/8, 7/8, 4/8, 1/8, 6/8, 3/8] again and again. *)
Definition zero : rng := fun _ => Float 0 0.
Definition eighths : rng := fun i => Float (Z.of_nat (Nat.modulo (5 * i) 8)) (- 3).

(** A 2 x 3 grid generated on 1 January 2024, 00:00:00.123 UTC, in a UTC
    zone. *)
Definition grid_2024 : list (list DateCell) :=
  fst (generateGrid (fixed_zone 0) 1704067200123 2 3 eighths).

Definition state_2024 : BarState := gridLoaded grid_2024 mount.

(** A 1 x 1 grid generated 30 seconds after the epoch in a zone five hours
    behind UTC (local date 31 December 1969), every draw [0]. *)
Definition grid_1969 : list (list DateCell) :=
  fst (generateGrid (fixed_zone (-18000000)) 30000 1 1 zero).

Definition state_1969 : BarState := gridLoaded grid_1969 mount.

(** A scroll container whose bottom is 40 pixels away. *)
Definition near_bottom : Container :=
  {| scrollTop := 560; scrollHeight := 1000; clientHeight := 400 |}.

(** The time value of [hh:mm] UTC on a calendar day. *)
Definition at_utc (y m d hh mm : Z) : Z :=
  MakeDay y m d * msPerDay + hh * 3600000 + mm * msPerMinute.

(** New York in 2026 and 2027: five hours behind UTC, four while daylight
    saving time is in force, from the second Sunday of March, 2:00, to the
    first Sunday of November, 2:00. *)
Definition new_york : TimeZone :=
  {| utc_offset := fun t =>
       if ((at_utc 2026 3 8 7 0 <=? t) && (t <? at_utc 2026 11 1 6 0))
          || ((at_utc 2027 3 14 7 0 <=? t) && (t <? at_utc 2027 11 7 6 0))
       then - 14400000 else - 18000000;
     local_offset := fun t =>
       if ((at_utc 2026 3 8 3 0 <=? t) && (t <? at_utc 2026 11 1 2 0))
          || ((at_utc 2027 3 14 3 0 <=? t) && (t <? at_utc 2027 11 7 2 0))
       then - 14400000 else - 18000000 |}.






End Samples.

(** ** What a render shows *)

Module View.
Import JS DateFns Bar.

(** A render either yields what it shows or is aborted by a thrown
    [RangeError], the one exception the calls of the component can raise. *)
Inductive outcome (A : Type) : Type :=
| Shown (a : A)
| Thrown.
Arguments Shown {A} a.
Arguments Thrown {A}.

Definition bind {A B : Type} (o : outcome A) (k : A -> outcome B) : outcome B :=
  match o with
  | Shown a => k a
  | Thrown => Thrown
  end.

(** The children of a list, rendered in order. *)
Fixpoint each {A B : Type} (f : A -> outcome B) (l : list A) : outcome (list B) :=
  match l with
  | [] => Shown []
  | x :: l' =>
      bind (f x) (fun y => bind (each f l') (fun ys => Shown (y :: ys)))
  end.

Section Render.
(** [format(d, "yyyy-MM-dd HH:mm")] of date-fns: a text, or a throw. *)
Variable format : Date -> outcome string.

Definition InfoPanel (label value : string) : string :=
  (label ++ ": " ++ value)%string.

(** [StatsSection]: the three lines of the statistics panel. *)
Definition StatsSection (cells : list DateCell) : outcome (list string) :=
  let stats := Stats_of cells in
  let total := InfoPanel "Total Cells" (string_of_nat (count stats)) in
  bind (format (minDate stats)) (fun earliest =>
  bind (format (maxDate stats)) (fun latest =>
  Shown [ total;
          InfoPanel "Earliest Date" earliest;
          InfoPanel "Latest Date" latest ])).

Definition DateCellComponent (cell : DateCell) : outcome string :=
  format (timestamp cell).

Definition RowComponent (row : list DateCell) : outcome (list string) :=
  each DateCellComponent row.

(** The text of the sort button. *)
Definition sortButton (st : BarState) : string :=
  ("Sort " ++ (if sortAsc st then "Descending" else "Ascending"))%string.

Record BarView : Type := mkBarView {
  button : string;
  rows : list (list string);
  statsPanel : list string
}.

(** What [Bar] shows in state [st]: the button, the rows of the visible
    cells and the statistics of the visible cells. *)
Definition Bar_render (st : BarState) : outcome BarView :=
  bind (each RowComponent (groupedRows st)) (fun rs =>
  bind (StatsSection (visibleCells st)) (fun sp =>
  Shown {| button := sortButton st; rows := rs; statsPanel := sp |})).
End Render.

End View.

(** ** Vocabulary of the further statements *)

Module Closed.
Import JS DateFns Bar Spec View.

(** The date [generateRandomDate] builds from two draws. *)
Definition date_of_draws (tz : TimeZone) (baseDate : Date) (u1 u2 : double) : Date :=
  addMinutes (addDays tz baseDate (Math_floor (mul u1 365))) (Math_floor (mul u2 1440)).

(** The cell of row [i] and column [j] of a grid of [cols] columns: its
    two draws are the draws [2 * (i * cols + j)] and the next one. *)
Definition cell_at (tz : TimeZone) (baseDate : Date) (r : rng) (cols i j : nat)
  : DateCell :=
  {| id := cell_id i j;
     timestamp := date_of_draws tz baseDate
                    (r (2 * (i * cols + j))%nat)
                    (r (2 * (i * cols + j) + 1)%nat) |}.

(** A zone whose offsets from UTC are whole minutes. *)
Definition minute_offsets (tz : TimeZone) : Prop :=
  forall t, utc_offset tz t mod msPerMinute = 0 /\ local_offset tz t mod msPerMinute = 0.

Definition is_toggle (e : Event) : bool :=
  match e with SortToggleClick => true | _ => false end.

(** The direction of the [n]-th click after the first, when the first one
    found the flag [asc]. *)
Definition direction (asc : bool) (n : nat) : bool :=
  if Nat.even n then asc else negb asc.

(** A stand-in for [format]: the time value in decimal, a throw on the
    Invalid Date. *)
Definition format_time_value (d : Date) : outcome string :=
  match d with
  | ValidDate t => Shown (NilZero.string_of_int (Z.to_int t))
  | InvalidDate => Thrown
  end.


End Closed.

(** ** Facts about the host built-ins *)

Module JSFacts.
Import JS Spec.

Section Sorting.
Context {A : Type}.

Lemma insert_perm (cmp : A -> A -> number) x l :
  Permutation (insert cmp x l) (x :: l).
Proof.
  induction l as [|y l IH]; simpl; [reflexivity|].
  destruct (after cmp x y); [|reflexivity].
  rewrite IH. apply perm_swap.
Qed.

Lemma sort_perm (cmp : A -> A -> number) l : Permutation (sort cmp l) l.
Proof.
  induction l as [|x l IH]; simpl; [constructor|].
  rewrite insert_perm. now constructor.
Qed.

Lemma insert_ext_in (cmp cmp' : A -> A -> number) x l :
  (forall y, In y l -> after cmp x y = after cmp' x y) ->
  insert cmp x l = insert cmp' x l.
Proof.
  induction l as [|y l IH]; simpl; intros H; [reflexivity|].
  rewrite (H y) by auto.
  rewrite IH by auto. reflexivity.
Qed.

(** Two comparators that agree on the items of [l] sort it alike. *)
Lemma sort_ext_in (cmp cmp' : A -> A -> number) l :
  (forall x y, In x l -> In y l -> after cmp x y = after cmp' x y) ->
  sort cmp l = sort cmp' l.
Proof.
  induction l as [|x l IH]; simpl; intros H; [reflexivity|].
  rewrite IH by auto.
  apply insert_ext_in. intros y Hy. apply H; auto.
  right. eapply Permutation_in; [apply sort_perm | exact Hy].
Qed.

Variable key : A -> Z.

Lemma after_by_key x y : after (by_key key) x y = (key y <? key x).
Proof.
  unfold after, by_key; simpl.
  destruct (Z.ltb_spec 0 (key x - key y)), (Z.ltb_spec (key y) (key x)); lia || reflexivity.
Qed.

Lemma insert_sorted x l :
  StronglySorted (key_le key) l ->
  StronglySorted (key_le key) (insert (by_key key) x l).
Proof.
  induction 1 as [|y l Hs IH Hy]; simpl.
  - repeat constructor.
  - rewrite after_by_key. destruct (Z.ltb_spec (key y) (key x)) as [Hlt|Hge].
    + constructor; [exact IH|].
      eapply Permutation_Forall; [symmetry; apply insert_perm|].
      constructor; [unfold key_le; lia | exact Hy].
    + constructor; [now constructor|].
      constructor; [exact Hge|].
      eapply Forall_impl; [|exact Hy]. unfold key_le. intros; lia.
Qed.

Lemma sort_sorted l : StronglySorted (key_le key) (sort (by_key key) l).
Proof.
  induction l as [|x l IH]; simpl; [constructor | now apply insert_sorted].
Qed.

(** Insertion never moves an item past another one of the same key. *)
Lemma with_key_insert k x l :
  with_key key k (insert (by_key key) x l) = with_key key k (x :: l).
Proof.
  unfold with_key.
  induction l as [|y l IH]; simpl; [reflexivity|].
  rewrite after_by_key. destruct (Z.ltb_spec (key y) (key x)) as [Hlt|Hge]; [|reflexivity].
  simpl. rewrite IH. simpl.
  destruct (Z.eqb_spec (key y) k), (Z.eqb_spec (key x) k); try reflexivity; lia.
Qed.

(** The sort is stable: items of equal key keep their order. *)
Lemma sort_stable k l :
  with_key key k (sort (by_key key) l) = with_key key k l.
Proof.
  induction l as [|x l IH]; simpl; [reflexivity|].
  rewrite with_key_insert. unfold with_key in *. simpl. now rewrite IH.
Qed.

Lemma with_key_head x l : with_key key (key x) (x :: l) = x :: with_key key (key x) l.
Proof. unfold with_key; simpl. now rewrite Z.eqb_refl. Qed.

Lemma with_key_In k x l : In x (with_key key k l) <-> In x l /\ key x = k.
Proof. unfold with_key. rewrite filter_In, Z.eqb_eq. reflexivity. Qed.

(** A sorted list is determined by its classes of equal key. *)
Lemma sorted_stable_unique l1 :
  forall l2,
    StronglySorted (key_le key) l1 ->
    StronglySorted (key_le key) l2 ->
    (forall k, with_key key k l1 = with_key key k l2) ->
    l1 = l2.
Proof.
  induction l1 as [|x l1 IH]; intros [|y l2] H1 H2 E.
  - reflexivity.
  - specialize (E (key y)). rewrite with_key_head in E. discriminate.
  - specialize (E (key x)). rewrite with_key_head in E. discriminate.
  - apply StronglySorted_inv in H1 as [H1 Hx].
    apply StronglySorted_inv in H2 as [H2 Hy].
    assert (Hxy : key x = key y).
    { assert (In y (x :: l1)) as Hin1.
      { apply (with_key_In (key y)). rewrite E, with_key_head. now left. }
      assert (In x (y :: l2)) as Hin2.
      { apply (with_key_In (key x)). rewrite <- E, with_key_head. now left. }
      rewrite Forall_forall in Hx, Hy. unfold key_le in *.
      destruct Hin1 as [->|Hin1]; [reflexivity|].
      destruct Hin2 as [->|Hin2]; [reflexivity|].
      specialize (Hx _ Hin1). specialize (Hy _ Hin2). lia. }
    assert (x = y) as <-.
    { pose proof (E (key x)) as E0. rewrite with_key_head in E0.
      rewrite Hxy, with_key_head in E0. now injection E0. }
    f_equal. apply IH; trivial.
    intros k. specialize (E k). unfold with_key in *. simpl in E.
    destruct (key x =? k); [now injection E | exact E].
Qed.

(** Sorting a sorted list changes nothing. *)
Lemma sort_sorted_id l :
  StronglySorted (key_le key) l -> sort (by_key key) l = l.
Proof.
  intros H. apply sorted_stable_unique; [apply sort_sorted | exact H |].
  intros k. apply sort_stable.
Qed.

End Sorting.

(** Sorting by one key, then by another key with the same classes, is sorting
    by the second key alone. *)
Lemma sort_sort {A : Type} (key1 key2 : A -> Z) l :
  (forall x y, key1 x = key1 y <-> key2 x = key2 y) ->
  sort (by_key key2) (sort (by_key key1) l) = sort (by_key key2) l.
Proof.
  intros Hk. apply (sorted_stable_unique key2); try apply sort_sorted.
  intros k. rewrite !sort_stable.
  (* classes of [key2] inside the list sorted by [key1] *)
  assert (Hclass : forall l0 x0, filter (fun x => key2 x =? key2 x0) l0
                                 = with_key key1 (key1 x0) l0).
  { intros l0 x0. unfold with_key. apply filter_ext. intros x.
    destruct (Z.eqb_spec (key2 x) (key2 x0)) as [e|n], (Z.eqb_spec (key1 x) (key1 x0)) as [e'|n'];
      try reflexivity.
    - apply Hk in e. contradiction.
    - apply Hk in e'. contradiction. }
  destruct (existsb (fun x => key2 x =? k) l) eqn:Hex.
  - apply existsb_exists in Hex as (x0 & _ & Hx0). apply Z.eqb_eq in Hx0. subst k.
    unfold with_key at 1 2. rewrite !Hclass. apply sort_stable.
  - assert (Hnone : forall l0, (forall x, In x l0 -> In x l) -> with_key key2 k l0 = []).
    { intros l0 Hin. unfold with_key.
      induction l0 as [|a l0 IH0]; simpl; [reflexivity|].
      destruct (key2 a =? k) eqn:Ea.
      - exfalso. assert (existsb (fun x => key2 x =? k) l = true) as Ht.
        { apply existsb_exists. exists a. split; [apply Hin; now left | exact Ea]. }
        congruence.
      - apply IH0. intros; apply Hin; now right. }
    rewrite (Hnone l) by auto.
    apply Hnone. intros x Hx. eapply Permutation_in; [apply sort_perm | exact Hx].
Qed.

End JSFacts.

(** ** The generator *)

Module GeneratorFacts.
Import JS DateFns Bar Spec Closed.

Lemma new_Date_valid t : time_value t -> new_Date (Num t) = ValidDate t.
Proof.
  unfold time_value, new_Date, TimeClip. intros H.
  destruct (Z.leb_spec (Z.abs t) MAX_TIME); [reflexivity | lia].
Qed.

(** *** Rounding *)

(** The rounded quotient is within a half of the exact one from above. *)
Lemma round_quotient M P :
  0 <= M -> 0 < P ->
  0 <= (if 2 * (M mod P) <? P then M / P
        else if P <? 2 * (M mod P) then M / P + 1
             else if Z.even (M / P) then M / P else M / P + 1)
  /\ 2 * (if 2 * (M mod P) <? P then M / P
          else if P <? 2 * (M mod P) then M / P + 1
               else if Z.even (M / P) then M / P else M / P + 1) * P
     <= 2 * M + P.
Proof.
  intros HM HP.
  pose proof (Z.div_mod M P ltac:(lia)) as Hdm.
  pose proof (Z.mod_pos_bound M P HP) as Hrem.
  pose proof (Z.div_pos M P HM HP) as Hq.
  destruct (Z.ltb_spec (2 * (M mod P)) P); [split; nia|].
  destruct (Z.ltb_spec P (2 * (M mod P))); [split; nia|].
  destruct (Z.even (M / P)); split; nia.
Qed.

(** [Math.floor(Math.random() * n)] is one of [0 .. n - 1], for the two
    factors of the component (365 lies between 2^8 and 2^9, 1440 between
    2^10 and 2^11): the rounding of the product never reaches [n]. *)
Lemma floor_draw (u : double) (n c : Z) :
  0 < c -> 2 ^ (c - 1) < n < 2 ^ c ->
  0 <= mant u < 2 ^ 53 /\ - 1074 <= expo u <= 0 /\ mant u < 2 ^ (- expo u) ->
  0 <= Math_floor (mul u n) < n.
Proof.
  intros Hc [Hn1 Hn2] (Hm & He & Hlt). destruct u as [m e]. cbn [mant expo] in *.
  assert (Hc1 : 0 < 2 ^ (c - 1)) by (apply Z.pow_pos_nonneg; lia).
  assert (HB : 0 < 2 ^ (- e)) by (apply Z.pow_pos_nonneg; lia).
  unfold mul, round53. cbn [mant expo].
  destruct (Z.leb_spec (Z.log2 (m * n) + 1 - 53) 0) as [Hsh|Hsh].
  - unfold Math_floor. cbn [mant expo].
    destruct (Z.leb_spec 0 e) as [He0|He0].
    + assert (e = 0) by lia. subst e. change (2 ^ (- 0)) with 1 in Hlt.
      assert (m = 0) by lia. subst m. simpl. lia.
    + split; [apply Z.div_pos; nia|].
      apply Z.div_lt_upper_bound; nia.
  - set (sh := Z.log2 (m * n) + 1 - 53) in *.
    assert (HMpos : 0 < m * n).
    { destruct (Z.lt_ge_cases 0 (m * n)) as [H|H]; [exact H|].
      unfold sh in Hsh. rewrite Z.log2_nonpos in Hsh by lia. lia. }
    assert (HP : 0 < 2 ^ sh) by (apply Z.pow_pos_nonneg; lia).
    destruct (round_quotient (m * n) (2 ^ sh) ltac:(lia) HP) as [Hr0 Hr].
    set (r := if 2 * ((m * n) mod 2 ^ sh) <? 2 ^ sh then m * n / 2 ^ sh
              else if 2 ^ sh <? 2 * ((m * n) mod 2 ^ sh) then m * n / 2 ^ sh + 1
                   else if Z.even (m * n / 2 ^ sh) then m * n / 2 ^ sh
                        else m * n / 2 ^ sh + 1) in *.
    assert (Hshc : sh <= c).
    { assert (Z.log2 (m * n) < 53 + c); [|unfold sh; lia].
      apply Z.log2_lt_pow2; [exact HMpos|].
      rewrite Z.pow_add_r by lia.
      assert (0 < 2 ^ 53) by (apply Z.pow_pos_nonneg; lia). nia. }
    assert (HPn : 2 ^ sh < 2 * n).
    { assert (2 ^ sh <= 2 ^ c) by (apply Z.pow_le_mono_r; lia).
      replace c with (1 + (c - 1)) in H by lia.
      rewrite Z.pow_add_r in H by lia. change (2 ^ 1) with 2 in H. lia. }
    assert (Hrn : r * 2 ^ sh < n * 2 ^ (- e)) by nia.
    unfold Math_floor. cbn [mant expo].
    destruct (Z.leb_spec 0 (e + sh)) as [Hes|Hes].
    + assert (E : 2 ^ sh = 2 ^ (e + sh) * 2 ^ (- e)).
      { rewrite <- Z.pow_add_r by lia. f_equal. lia. }
      assert (0 < 2 ^ (e + sh)) by (apply Z.pow_pos_nonneg; lia).
      rewrite E in Hrn. split; nia.
    + assert (E : 2 ^ (- e) = 2 ^ sh * 2 ^ (- (e + sh))).
      { rewrite <- Z.pow_add_r by lia. f_equal. lia. }
      assert (HC : 0 < 2 ^ (- (e + sh))) by (apply Z.pow_pos_nonneg; lia).
      rewrite E in Hrn.
      split; [apply Z.div_pos; lia|].
      apply Z.div_lt_upper_bound; [exact HC|]. nia.
Qed.

(** *** One random date *)

(** The date built from two draws of a unit source: a day [d] and a minute
    [m] in their ranges, the date [a] that [addDays] gives for [d], which is
    [d] days after the baseline up to the drift of the offset, and [m]
    minutes more. *)
Lemma date_of_draws_spec tz b delta u1 u2 :
  0 <= mant u1 < 2 ^ 53 /\ - 1074 <= expo u1 <= 0 /\ mant u1 < 2 ^ (- expo u1) ->
  0 <= mant u2 < 2 ^ 53 /\ - 1074 <= expo u2 <= 0 /\ mant u2 < 2 ^ (- expo u2) ->
  offset_drift tz b delta ->
  - MAX_TIME <= b - delta ->
  b + 365 * msPerDay + delta <= MAX_TIME ->
  exists d m a,
    0 <= d <= 364 /\ 0 <= m <= 1439
    /\ addDays tz (ValidDate b) d = ValidDate a
    /\ b + d * msPerDay - delta <= a <= b + d * msPerDay + delta
    /\ date_of_draws tz (ValidDate b) u1 u2 = ValidDate (a + m * msPerMinute).
Proof.
  intros H1 H2 Hdrift Hlow Hhigh.
  pose proof (floor_draw u1 365 9 ltac:(lia) ltac:(simpl; lia) H1) as Hd.
  pose proof (floor_draw u2 1440 11 ltac:(lia) ltac:(simpl; lia) H2) as Hm.
  assert (Hdelta : 0 <= delta).
  { pose proof (Hdrift 1 ltac:(lia)). lia. }
  unfold date_of_draws.
  set (d := Math_floor (mul u1 365)) in *. set (m := Math_floor (mul u2 1440)) in *.
  unfold msPerDay, msPerMinute, MAX_TIME in *.
  assert (Ha : exists a, addDays tz (ValidDate b) d = ValidDate a
                         /\ b + d * 86400000 - delta <= a <= b + d * 86400000 + delta).
  { unfold addDays. destruct (Z.eqb_spec d 0) as [E|E].
    - exists b. split; [reflexivity | lia].
    - pose proof (Hdrift d ltac:(lia)) as Hd'.
      unfold UTC, LocalTime, msPerDay in *.
      eexists. split; [apply new_Date_valid; unfold time_value, MAX_TIME; lia | lia]. }
  destruct Ha as (a & Ea & Hab).
  exists d, m, a. split; [lia|]. split; [lia|]. split; [exact Ea|]. split; [exact Hab|].
  rewrite Ea. unfold addMinutes.
  apply new_Date_valid. unfold time_value, msPerMinute, MAX_TIME. lia.
Qed.

(** *** The loops in closed form *)

Lemma generateRandomDate_draws tz baseDate r :
  generateRandomDate tz baseDate r
  = (date_of_draws tz baseDate (r 0%nat) (r 1%nat), fun i => r (S (S i))).
Proof. reflexivity. Qed.

Lemma fill_row_closed tz baseDate row n :
  forall col acc r,
    fst (fill_row tz baseDate row n col acc r)
    = acc ++ map (fun j => {| id := cell_id row (col + j);
                              timestamp := date_of_draws tz baseDate
                                             (r (2 * j)%nat) (r (2 * j + 1)%nat) |})
                 (seq 0 n)
    /\ forall i, snd (fill_row tz baseDate row n col acc r) i = r (2 * n + i)%nat.
Proof.
  induction n as [|n IH]; intros col acc r; cbn [fill_row].
  - simpl. rewrite app_nil_r. split; reflexivity.
  - rewrite generateRandomDate_draws.
    destruct (IH (S col)
                 (acc ++ [ {| id := (string_of_nat row ++ "-" ++ string_of_nat col)%string;
                              timestamp := date_of_draws tz baseDate (r 0%nat) (r 1%nat) |} ])
                 (fun i => r (S (S i)))) as [Hfst Hsnd].
    split.
    + rewrite Hfst, <- app_assoc. f_equal.
      cbn [seq map app]. f_equal.
      * unfold cell_id. now rewrite Nat.add_0_r.
      * rewrite <- seq_shift, map_map. apply map_ext. intros j.
        f_equal; [f_equal; lia|].
        f_equal; f_equal; lia.
    + intros i. rewrite Hsnd. f_equal. lia.
Qed.

Lemma fill_grid_closed tz baseDate cols n :
  forall row acc r,
    fst (fill_grid tz baseDate cols n row acc r)
    = acc ++ map (fun i =>
                    map (fun j => {| id := cell_id (row + i) j;
                                     timestamp := date_of_draws tz baseDate
                                                    (r (2 * (i * cols + j))%nat)
                                                    (r (2 * (i * cols + j) + 1)%nat) |})
                        (seq 0 cols))
                 (seq 0 n)
    /\ forall i, snd (fill_grid tz baseDate cols n row acc r) i = r (2 * (n * cols) + i)%nat.
Proof.
  induction n as [|n IH]; intros row acc r; cbn [fill_grid].
  - simpl. rewrite app_nil_r. split; reflexivity.
  - destruct (fill_row_closed tz baseDate row cols 0%nat [] r) as [Hrow Hr'].
    destruct (fill_row tz baseDate row cols 0 [] r) as [currentRow r'] eqn:E.
    cbn [fst snd app] in Hrow, Hr'. subst currentRow.
    destruct (IH (S row) (acc ++ [map (fun j => {| id := cell_id row (0 + j);
                                                   timestamp := date_of_draws tz baseDate
                                                     (r (2 * j)%nat) (r (2 * j + 1)%nat) |})
                                      (seq 0 cols)]) r') as [Hfst Hsnd].
    split.
    + rewrite Hfst, <- app_assoc. f_equal.
      cbn [seq map app]. f_equal.
      * apply map_ext. intros j. rewrite Nat.add_0_r. reflexivity.
      * rewrite <- seq_shift, map_map. apply map_ext. intros i.
        apply map_ext. intros j. rewrite !Hr'.
        f_equal; [f_equal; lia|].
        f_equal; f_equal; lia.
    + intros i. rewrite Hsnd, Hr'. f_equal. lia.
Qed.

(** The grid, cell by cell. *)
Lemma generateGrid_cells_at tz now rows cols r :
  fst (generateGrid tz now rows cols r)
  = map (fun i => map (cell_at tz (startOfDay tz (new_Date (Num now))) r cols i) (seq 0 cols))
        (seq 0 rows)
  /\ forall i, snd (generateGrid tz now rows cols r) i = r (2 * (rows * cols) + i)%nat.
Proof.
  unfold generateGrid.
  destruct (fill_grid_closed tz (startOfDay tz (new_Date (Num now))) cols rows 0%nat [] r)
    as [Hfst Hsnd].
  split; [|exact Hsnd].
  rewrite Hfst. reflexivity.
Qed.

(** What holds of the date of every cell holds of the grid. *)
Lemma generateGrid_Forall tz now rows cols r (P : DateCell -> Prop) :
  (forall i j, P (cell_at tz (startOfDay tz (new_Date (Num now))) r cols i j)) ->
  Forall P (flat (fst (generateGrid tz now rows cols r))).
Proof.
  intros HP. destruct (generateGrid_cells_at tz now rows cols r) as [-> _].
  unfold flat. apply Forall_concat.
  apply Forall_map, Forall_forall. intros i _.
  apply Forall_map, Forall_forall. intros j _. apply HP.
Qed.

Lemma generateGrid_ids tz now rows cols r :
  map id (flat (fst (generateGrid tz now rows cols r)))
  = concat (map (fun i => map (cell_id i) (seq 0 cols)) (seq 0 rows)).
Proof.
  destruct (generateGrid_cells_at tz now rows cols r) as [-> _].
  unfold flat. rewrite concat_map, map_map. f_equal.
  apply map_ext. intros i. rewrite map_map. reflexivity.
Qed.


(** *** Ids *)

Lemma string_of_uint_digits d : digits_only (NilEmpty.string_of_uint d) = true.
Proof. induction d; simpl; auto. Qed.

Lemma string_of_nat_inj n m : string_of_nat n = string_of_nat m -> n = m.
Proof.
  unfold string_of_nat. intros H.
  apply Unsigned.to_uint_inj.
  pose proof (NilEmpty.usu (Nat.to_uint n)) as Hn.
  pose proof (NilEmpty.usu (Nat.to_uint m)) as Hm.
  rewrite H in Hn. congruence.
Qed.

Lemma split_at_dash s1 :
  forall s2 t1 t2,
    digits_only s1 = true -> digits_only s2 = true ->
    (s1 ++ "-" ++ t1 = s2 ++ "-" ++ t2)%string ->
    s1 = s2 /\ t1 = t2.
Proof.
  induction s1 as [|c s1 IH]; intros [|c' s2] t1 t2 H1 H2 E; simpl in *.
  - injection E as ->. auto.
  - injection E as <- _. discriminate.
  - injection E as -> _. discriminate.
  - injection E as -> E.
    destruct (digit c'); [|discriminate].
    destruct (IH _ _ _ H1 H2 E) as [-> ->]. auto.
Qed.

Lemma cell_id_inj i j i' j' : cell_id i j = cell_id i' j' -> i = i' /\ j = j'.
Proof.
  unfold cell_id, string_of_nat. intros E.
  apply split_at_dash in E; try apply string_of_uint_digits.
  destruct E as [E1 E2]. split; now apply string_of_nat_inj.
Qed.

Lemma grid_ids_prod cols l :
  concat (map (fun i => map (cell_id i) (seq 0 cols)) l)
  = map (fun p => cell_id (fst p) (snd p)) (list_prod l (seq 0 cols)).
Proof.
  induction l as [|i l IH]; simpl; [reflexivity|].
  now rewrite map_app, map_map, IH.
Qed.

Lemma NoDup_list_prod {A B : Type} (l : list A) (l' : list B) :
  NoDup l -> NoDup l' -> NoDup (list_prod l l').
Proof.
  induction 1 as [|x l Hx Hl IH]; intros Hl'; simpl; [constructor|].
  apply NoDup_app.
  - apply Finite.Injective_map_NoDup; [|exact Hl']. intros y y' E. now injection E.
  - now apply IH.
  - intros [a c] Hin Hin'. apply in_map_iff in Hin as (y & E & _). injection E as <- <-.
    apply in_prod_iff in Hin' as [Hin' _]. contradiction.
Qed.

Lemma grid_ids_NoDup rows cols :
  NoDup (concat (map (fun i => map (cell_id i) (seq 0 cols)) (seq 0 rows))).
Proof.
  rewrite grid_ids_prod.
  apply Finite.Injective_map_NoDup.
  - intros [i j] [i' j'] E. simpl in E. apply cell_id_inj in E as [-> ->]. reflexivity.
  - apply NoDup_list_prod; apply seq_NoDup.
Qed.


(** *** The baseline *)

Lemma startOfDay_time_value tz d b : startOfDay tz d = ValidDate b -> time_value b.
Proof.
  destruct d as [t|]; [|discriminate].
  unfold startOfDay, new_Date, TimeClip, time_value.
  destruct (Z.leb_spec (Z.abs (UTC tz (LocalTime tz t / msPerDay * msPerDay))) MAX_TIME);
    [|discriminate].
  intros [= <-]. lia.
Qed.

(** [startOfDay] of a clock reading is the instant of the midnight that
    starts the local day of the reading. *)
Lemma startOfDay_local_midnight tz now b :
  startOfDay tz (new_Date (Num now)) = ValidDate b ->
  exists L, L mod msPerDay = 0
            /\ L <= LocalTime tz now < L + msPerDay
            /\ b = UTC tz L.
Proof.
  unfold new_Date at 1, TimeClip.
  destruct (Z.abs now <=? MAX_TIME); [|discriminate].
  unfold startOfDay, new_Date, TimeClip.
  destruct (Z.abs _ <=? MAX_TIME); [|discriminate].
  intros [= <-]. exists (LocalTime tz now / msPerDay * msPerDay).
  unfold msPerDay.
  pose proof (Z.div_mod (LocalTime tz now) 86400000 ltac:(lia)) as Hdm.
  pose proof (Z.mod_pos_bound (LocalTime tz now) 86400000 ltac:(lia)) as Hb.
  split; [apply Z.mod_mul; lia|]. split; [lia | reflexivity].
Qed.

(** In a zone of one offset it is the local midnight before the reading. *)
Lemma startOfDay_midnight z now b :
  startOfDay (fixed_zone z) (new_Date (Num now)) = ValidDate b ->
  b <= now < b + msPerDay /\ (b + z) mod msPerDay = 0.
Proof.
  intros Hb. destruct (startOfDay_local_midnight _ _ _ Hb) as (L & HL & Hnow & ->).
  unfold UTC, LocalTime in *. cbn [fixed_zone utc_offset local_offset] in *.
  split; [lia|]. now replace (L - z + z) with L by lia.
Qed.

Lemma offset_drift_fixed z b : offset_drift (fixed_zone z) b 0.
Proof. intros d _. cbn [fixed_zone utc_offset local_offset]. lia. Qed.

(** *** The dates of a grid *)

(** Every generated timestamp: a day, a minute, and the date of the day. *)
Lemma generateGrid_dates tz now rows cols r b delta :
  unit_draws r ->
  startOfDay tz (new_Date (Num now)) = ValidDate b ->
  offset_drift tz b delta ->
  - MAX_TIME <= b - delta ->
  b + 365 * msPerDay + delta <= MAX_TIME ->
  Forall (fun c =>
            exists d m a,
              0 <= d <= 364 /\ 0 <= m <= 1439
              /\ addDays tz (ValidDate b) d = ValidDate a
              /\ b + d * msPerDay - delta <= a <= b + d * msPerDay + delta
              /\ timestamp c = ValidDate (a + m * msPerMinute))
         (flat (fst (generateGrid tz now rows cols r))).
Proof.
  intros Hr Hb Hdrift Hlow Hhigh.
  apply generateGrid_Forall. intros i j. rewrite Hb. unfold cell_at. cbn [timestamp].
  apply date_of_draws_spec; auto.
Qed.

(** Every generated cell carries a valid date. *)
Lemma generateGrid_valid tz now rows cols r b delta :
  unit_draws r ->
  startOfDay tz (new_Date (Num now)) = ValidDate b ->
  offset_drift tz b delta ->
  - MAX_TIME <= b - delta ->
  b + 365 * msPerDay + delta <= MAX_TIME ->
  Forall valid_cell (flat (fst (generateGrid tz now rows cols r))).
Proof.
  intros Hr Hb Hdrift Hlow Hhigh.
  eapply Forall_impl; [|apply (generateGrid_dates tz now rows cols r b delta); assumption].
  intros c (d & m & a & Hd & Hm & _ & Ha & E).
  assert (0 <= delta) by (pose proof (Hdrift 1 ltac:(lia)); lia).
  unfold valid_cell. rewrite E. unfold in_interval, msPerDay, msPerMinute, MAX_TIME in *.
  lia.
Qed.

End GeneratorFacts.

(** ** The view pipeline *)

Module PipelineFacts.
Import JS DateFns Bar Spec JSFacts.

(** *** Filtering *)

Lemma between_in_interval lo hi d :
  Date_ge d (ValidDate lo) && Date_le d (ValidDate hi) = in_intervalb lo hi d.
Proof. destruct d; reflexivity. Qed.

Lemma in_intervalb_spec lo hi d : in_intervalb lo hi d = true <-> in_interval lo hi d.
Proof.
  destruct d as [t|]; simpl; [|split; [discriminate | contradiction]].
  rewrite andb_true_iff, !Z.leb_le. reflexivity.
Qed.

Lemma bound_text_start parse lo start :
  bound_text parse lo start ->
  (if truthy start then new_Date (parse start) else new_Date (Num 0))
  = ValidDate (lower lo).
Proof.
  destruct lo as [t|]; simpl.
  - intros (Hne & Hp & Ht). destruct start; [contradiction|]. simpl.
    rewrite Hp. now apply GeneratorFacts.new_Date_valid.
  - intros ->. reflexivity.
Qed.

Lemma bound_text_stop parse hi stop :
  bound_text parse hi stop ->
  (if truthy stop then new_Date (parse stop) else new_Date (Num 8640000000000000))
  = ValidDate (upper hi).
Proof.
  destruct hi as [t|]; simpl.
  - intros (Hne & Hp & Ht). destruct stop; [contradiction|]. simpl.
    rewrite Hp. now apply GeneratorFacts.new_Date_valid.
  - intros ->. reflexivity.
Qed.

(** What [handleFilter] keeps, in terms of the interval. *)
Lemma handleFilter_interval parse start stop lo hi st :
  bound_text parse lo start -> bound_text parse hi stop ->
  filteredCells (handleFilter parse start stop st)
  = filter (fun c => in_intervalb (lower lo) (upper hi) (timestamp c)) (flatCells st).
Proof.
  intros Hlo Hhi. unfold handleFilter. cbn [filteredCells].
  rewrite (bound_text_start _ _ _ Hlo), (bound_text_stop _ _ _ Hhi).
  apply filter_ext. intros c. apply between_in_interval.
Qed.

Lemma filter_none {A : Type} (f : A -> bool) l :
  (forall x, f x = false) -> filter f l = [].
Proof.
  intros H. induction l as [|x l IH]; simpl; [reflexivity|]. now rewrite H.
Qed.

Lemma filter_all {A : Type} (f : A -> bool) l :
  Forall (fun x => f x = true) l -> filter f l = l.
Proof.
  induction 1 as [|x l Hx _ IH]; simpl; [reflexivity|]. now rewrite Hx, IH.
Qed.

Lemma Date_ge_invalid d : Date_ge d InvalidDate = false.
Proof. destruct d; reflexivity. Qed.

Lemma Date_le_invalid d : Date_le d InvalidDate = false.
Proof. destruct d; reflexivity. Qed.

Lemma handleFilter_bad_start parse start stop st :
  start <> EmptyString -> parse start = NaN ->
  filteredCells (handleFilter parse start stop st) = [].
Proof.
  intros Hne Hp. unfold handleFilter. cbn [filteredCells].
  destruct start; [contradiction|]. cbn [truthy]. rewrite Hp.
  apply filter_none. intros c. change (new_Date NaN) with InvalidDate.
  now rewrite Date_ge_invalid.
Qed.

Lemma handleFilter_bad_stop parse start stop st :
  stop <> EmptyString -> parse stop = NaN ->
  filteredCells (handleFilter parse start stop st) = [].
Proof.
  intros Hne Hp. unfold handleFilter. cbn [filteredCells].
  destruct stop; [contradiction|]. cbn [truthy]. rewrite Hp.
  apply filter_none. intros c. change (new_Date NaN) with InvalidDate.
  rewrite Date_le_invalid. apply andb_false_r.
Qed.

(** No handler touches the generated grid. *)
Lemma handle_fullGrid parse e st : fullGrid (handle parse e st) = fullGrid st.
Proof.
  destruct e as [start stop| |[c|]]; simpl; try reflexivity.
  destruct (Qle_bool _ _); reflexivity.
Qed.

Lemma run_fullGrid parse es : forall st, fullGrid (run parse es st) = fullGrid st.
Proof.
  unfold run. induction es as [|e es IH]; intros st; simpl; [reflexivity|].
  now rewrite IH, handle_fullGrid.
Qed.

(** *** Paging and rows *)

Lemma slice_0 {A : Type} n (l : list A) : slice 0 n l = firstn n l.
Proof. unfold slice. now rewrite Nat.sub_0_r. Qed.

Lemma slice_chunk {A : Type} i (l : list A) :
  slice i (i + 10) l = firstn 10 (skipn i l).
Proof. unfold slice. f_equal. lia. Qed.

Lemma slice_chunk_length {A : Type} i (l : list A) :
  List.length (slice i (i + 10) l) = Nat.min 10 (List.length l - i).
Proof. now rewrite slice_chunk, length_firstn, length_skipn. Qed.

(** One more row for every started ten. *)
Lemma ceil_step n : (0 < n)%nat -> ((n + 9) / 10 = S ((n - 10 + 9) / 10))%nat.
Proof.
  intros Hn. destruct (le_lt_dec 10 n) as [Hge|Hlt].
  - replace (n + 9)%nat with (n - 10 + 9 + 1 * 10)%nat by lia.
    rewrite Nat.div_add by lia. lia.
  - replace (n - 10)%nat with 0%nat by lia.
    symmetry. apply (Nat.div_unique _ _ _ (n - 1)); simpl; lia.
Qed.

Lemma groupedRows_from_concat visible i acc :
  concat (groupedRows_from visible i acc) = concat acc ++ skipn i visible.
Proof.
  funelim (groupedRows_from visible i acc).
  - match goal with IH : concat _ = _ |- _ => rewrite IH end.
    rewrite concat_app. simpl. rewrite app_nil_r, <- app_assoc. f_equal.
    rewrite slice_chunk, Nat.add_comm, <- skipn_skipn. apply firstn_skipn.
  - rewrite skipn_all2 by lia. now rewrite app_nil_r.
Qed.

Lemma groupedRows_from_rows visible i acc :
  exists rest,
    groupedRows_from visible i acc = acc ++ rest
    /\ List.length rest = ((List.length visible - i + 9) / 10)%nat
    /\ forall k, (k < List.length rest)%nat ->
                 nth k rest [] = slice (i + 10 * k) (i + 10 * k + 10) visible.
Proof.
  funelim (groupedRows_from visible i acc).
  - match goal with IH : exists _, _ |- _ => destruct IH as (rest & E & Hlen & Hnth) end.
    exists (slice i (i + 10) visible :: rest).
    split; [rewrite E, <- app_assoc; reflexivity|].
    split.
    + simpl. rewrite Hlen.
      replace (List.length visible - (i + 10))%nat
        with (List.length visible - i - 10)%nat by lia.
      symmetry. apply ceil_step. lia.
    + intros [|k] Hk; simpl.
      * now rewrite Nat.add_0_r.
      * simpl in Hk. rewrite Hnth by lia.
        f_equal; lia.
  - exists []. rewrite app_nil_r. split; [reflexivity|].
    split; [|simpl; intros; lia].
    simpl. replace (List.length visible - i)%nat with 0%nat by lia. reflexivity.
Qed.

End PipelineFacts.

(** ** Sorting cells by timestamp *)

Module ToggleFacts.
Import JS DateFns Bar Spec JSFacts.

Lemma StronglySorted_ext_in {A : Type} (R R' : A -> A -> Prop) l :
  (forall x y, In x l -> In y l -> R x y -> R' x y) ->
  StronglySorted R l -> StronglySorted R' l.
Proof.
  intros H Hs. induction Hs as [|x l Hs IH Hx]; constructor.
  - apply IH. intros; apply H; simpl; auto.
  - rewrite Forall_forall in *. intros y Hy. apply H; simpl; auto.
Qed.

Lemma valid_cell_time c : valid_cell c -> timestamp c = ValidDate (tv c).
Proof.
  unfold valid_cell, tv. destruct (timestamp c); simpl; [reflexivity | contradiction].
Qed.

Lemma time_le_tv x y : valid_cell x -> valid_cell y -> (time_le x y <-> tv x <= tv y).
Proof.
  intros Hx Hy. unfold time_le.
  rewrite (valid_cell_time _ Hx), (valid_cell_time _ Hy). reflexivity.
Qed.

Lemma compareCells_by_key asc x y :
  valid_cell x -> valid_cell y ->
  after (compareCells asc) x y = after (by_key (toggle_key asc)) x y.
Proof.
  intros Hx Hy. unfold after, compareCells, by_key, toggle_key.
  rewrite (valid_cell_time _ Hx), (valid_cell_time _ Hy).
  destruct asc; simpl;
    match goal with |- (0 <? ?a) = (0 <? ?b) => replace b with a by lia end; reflexivity.
Qed.

Lemma sort_cells_by_key asc l :
  Forall valid_cell l ->
  sort (compareCells asc) l = sort (by_key (toggle_key asc)) l.
Proof.
  intros Hv. rewrite Forall_forall in Hv.
  apply sort_ext_in. intros x y Hx Hy. apply compareCells_by_key; auto.
Qed.

Lemma sort_cells_valid cmp l :
  Forall valid_cell l -> Forall valid_cell (sort cmp l).
Proof.
  intros Hv. eapply Permutation_Forall; [symmetry; apply sort_perm | exact Hv].
Qed.

Lemma toggled_order_key asc l :
  Forall valid_cell l ->
  (toggled_order asc l <-> StronglySorted (key_le (toggle_key asc)) l).
Proof.
  intros Hv. rewrite Forall_forall in Hv.
  unfold toggled_order, descending, ascending.
  destruct asc; split; apply StronglySorted_ext_in; intros x y Hx Hy;
    unfold key_le, toggle_key; rewrite time_le_tv by auto; lia.
Qed.

Lemma toggle_key_classes asc x y :
  toggle_key asc x = toggle_key asc y <-> toggle_key (negb asc) x = toggle_key (negb asc) y.
Proof. unfold toggle_key. destruct asc; simpl; lia. Qed.

(** A click orders the list in the direction of the flag. *)
Lemma sort_cells_order asc l :
  Forall valid_cell l -> toggled_order asc (sort (compareCells asc) l).
Proof.
  intros Hv. apply toggled_order_key; [now apply sort_cells_valid|].
  rewrite sort_cells_by_key by exact Hv. apply sort_sorted.
Qed.

(** The second of two clicks undoes nothing but the direction: the result is
    the list sorted the other way. *)
Lemma sort_cells_twice asc l :
  Forall valid_cell l ->
  sort (compareCells (negb asc)) (sort (compareCells asc) l)
  = sort (compareCells (negb asc)) l.
Proof.
  intros Hv.
  rewrite (sort_cells_by_key (negb asc)) by now apply sort_cells_valid.
  rewrite (sort_cells_by_key asc), (sort_cells_by_key (negb asc)) by exact Hv.
  apply sort_sort. intros x y. apply toggle_key_classes.
Qed.

Lemma sort_cells_id asc l :
  Forall valid_cell l -> toggled_order asc l -> sort (compareCells asc) l = l.
Proof.
  intros Hv Ho. rewrite sort_cells_by_key by exact Hv.
  apply sort_sorted_id. now apply toggled_order_key.
Qed.

End ToggleFacts.

(** ** Minimum and maximum of the time values *)

Module StatsFacts.
Import JS DateFns Bar Spec.

Lemma fold_min_Num ts : forall a,
  fold_left
    (fun lowest x =>
       match lowest, x with
       | NaN, _ | _, NaN => NaN
       | _, _ => if num_lt x lowest then x else lowest
       end)
    (map Num ts) (Num a)
  = Num (fold_left Z.min ts a).
Proof.
  induction ts as [|t ts IH]; intros a; simpl; [reflexivity|].
  destruct (Z.ltb_spec t a); rewrite IH; do 2 f_equal; lia.
Qed.

Lemma fold_max_Num ts : forall a,
  fold_left
    (fun highest x =>
       match highest, x with
       | NaN, _ | _, NaN => NaN
       | _, _ => if num_lt highest x then x else highest
       end)
    (map Num ts) (Num a)
  = Num (fold_left Z.max ts a).
Proof.
  induction ts as [|t ts IH]; intros a; simpl; [reflexivity|].
  destruct (Z.ltb_spec a t); rewrite IH; do 2 f_equal; lia.
Qed.

Lemma Math_min_Num t ts : Math_min (map Num (t :: ts)) = Num (fold_left Z.min ts t).
Proof. unfold Math_min. simpl. apply fold_min_Num. Qed.

Lemma Math_max_Num t ts : Math_max (map Num (t :: ts)) = Num (fold_left Z.max ts t).
Proof. unfold Math_max. simpl. apply fold_max_Num. Qed.

Lemma fold_min_spec ts : forall a,
  In (fold_left Z.min ts a) (a :: ts)
  /\ Forall (fun t => fold_left Z.min ts a <= t) (a :: ts).
Proof.
  induction ts as [|t ts IH]; intros a; simpl.
  - split; [now left | repeat constructor; lia].
  - destruct (IH (Z.min a t)) as [Hin Hall].
    apply Forall_inv in Hall as Hhd. apply Forall_inv_tail in Hall.
    split.
    + destruct Hin as [E|Hin]; [|now right; right].
      rewrite <- E. destruct (Z.min_spec a t) as [[_ ->]|[_ ->]]; auto.
    + constructor; [lia|]. constructor; [lia | exact Hall].
Qed.

Lemma fold_max_spec ts : forall a,
  In (fold_left Z.max ts a) (a :: ts)
  /\ Forall (fun t => t <= fold_left Z.max ts a) (a :: ts).
Proof.
  induction ts as [|t ts IH]; intros a; simpl.
  - split; [now left | repeat constructor; lia].
  - destruct (IH (Z.max a t)) as [Hin Hall].
    apply Forall_inv in Hall as Hhd. apply Forall_inv_tail in Hall.
    split.
    + destruct Hin as [E|Hin]; [|now right; right].
      rewrite <- E. destruct (Z.max_spec a t) as [[_ ->]|[_ ->]]; auto.
    + constructor; [lia|]. constructor; [lia | exact Hall].
Qed.

Lemma timestamps_valid cells :
  Forall valid_cell cells ->
  map (fun c => getTime (timestamp c)) cells = map Num (map tv cells).
Proof.
  induction 1 as [|c cells Hc _ IH]; simpl; [reflexivity|].
  now rewrite IH, (ToggleFacts.valid_cell_time _ Hc).
Qed.

End StatsFacts.

(** ** The model at work *)

Module Runs.
Import JS DateFns Bar Spec Samples.

Example parse_new_year_2024 : Date_parse_iso "2024-01-01" = Num 1704067200000.
Proof. reflexivity. Qed.

Example parse_last_day_1969 : Date_parse_iso "1969-12-31" = Num (- 86400000).
Proof. reflexivity. Qed.

Example parse_no_29_february_2023 : Date_parse_iso "2023-02-29" = NaN.
Proof. reflexivity. Qed.

Example grid_2024_first_row :
  nth 0 grid_2024 []
  = [ {| id := "0-0"; timestamp := ValidDate 1704121200000 |};
      {| id := "0-1"; timestamp := ValidDate 1712005200000 |};
      {| id := "0-2"; timestamp := ValidDate 1719802800000 |} ].
Proof. reflexivity. Qed.

Example filter_march_to_september_2024 :
  map id (filteredCells (handleFilter Date_parse_iso "2024-03-01" "2024-09-30" state_2024))
  = ["0-1"; "0-2"; "1-2"]%string.
Proof. reflexivity. Qed.

(** The cells [0-0] and [1-1], and [0-1] and [1-2], have equal timestamps:
    each pair keeps its order under both clicks. *)
Example two_clicks_on_grid_2024 :
  map id (filteredCells (handleSortToggle state_2024))
  = ["1-0"; "0-2"; "0-1"; "1-2"; "0-0"; "1-1"]%string
  /\ map id (filteredCells (handleSortToggle (handleSortToggle state_2024)))
     = ["0-0"; "1-1"; "0-1"; "1-2"; "0-2"; "1-0"]%string.
Proof. split; reflexivity. Qed.

Example rows_of_25 :
  map (@List.length DateCell)
      (groupedRows_from (repeat {| id := "x"; timestamp := ValidDate 0 |} 25) 0 [])
  = [10; 10; 5]%nat.
Proof. reflexivity. Qed.

(** The product of a draw and 365 is rounded before it is floored: the
    double below is less than 20/365, and gives day 20. *)
Example rounded_product_day_20 :
  7896722634293472 * 365 < 20 * 2 ^ 57
  /\ Math_floor (mul (Float 7896722634293472 (- 57)) 365) = 20.
Proof. split; reflexivity. Qed.

(** New York, 9 March 2026, daylight saving time: the midnight 364
    calendar days later, in standard time, is 364 days and an hour away. *)
Example addDays_new_york_364 :
  addDays new_york (ValidDate 1773028800000) 364
  = ValidDate (1773028800000 + 364 * msPerDay + 3600000).
Proof. reflexivity. Qed.

Example stats_of_nothing :
  Stats_of [] = {| count := 0; minDate := InvalidDate; maxDate := InvalidDate |}.
Proof. reflexivity. Qed.

End Runs.

(** ** The statements of the specification *)

Import JS DateFns Bar Spec Samples View Closed.
Import JSFacts GeneratorFacts PipelineFacts ToggleFacts StatsFacts.

(** *** Filtering *)

(** C1, as the code has it.  For every dataset and every pair of optional
    bounds, [handleFilter] returns exactly the records of the dataset whose
    timestamp lies in the closed interval [[start, end]], in the order of the
    dataset; a missing start stands for the epoch (time value 0) and a missing
    end for the last representable instant; on a dataset with no record
    before the epoch the missing start is as good as the first
    representable instant, and with both bounds missing the whole dataset
    is returned, in its order; and every call sets [page] to 1. *)
Theorem handleFilter_closed_interval
        (parse : string -> number) (start stop : string) (lo hi : option Z)
        (st : BarState) :
  bound_text parse lo start ->
  bound_text parse hi stop ->
  filteredCells (handleFilter parse start stop st)
  = filter (fun c => in_intervalb (lower lo) (upper hi) (timestamp c)) (flatCells st)
  /\ (forall c,
         In c (filteredCells (handleFilter parse start stop st))
         <-> In c (flatCells st) /\ in_interval (lower lo) (upper hi) (timestamp c))
  /\ page (handleFilter parse start stop st) = 1%nat
  /\ (lo = None ->
      Forall (fun c => in_interval 0 MAX_TIME (timestamp c)) (flatCells st) ->
      filteredCells (handleFilter parse start stop st)
      = filter (fun c => in_intervalb (- MAX_TIME) (upper hi) (timestamp c)) (flatCells st))
  /\ (lo = None -> hi = None ->
      Forall (fun c => in_interval 0 MAX_TIME (timestamp c)) (flatCells st) ->
      filteredCells (handleFilter parse start stop st) = flatCells st).
Proof.
  intros Hlo Hhi.
  pose proof (handleFilter_interval parse start stop lo hi st Hlo Hhi) as E.
  split; [exact E|].
  split; [intros c; rewrite E, filter_In, in_intervalb_spec; reflexivity|].
  split; [reflexivity|].
  split.
  - intros -> Hall. rewrite E. rewrite Forall_forall in Hall.
    apply filter_ext_in. intros c Hc. specialize (Hall c Hc).
    destruct (timestamp c) as [t|]; simpl in *; [|reflexivity].
    f_equal. unfold MAX_TIME in *. apply eq_true_iff_eq. rewrite !Z.leb_le. lia.
  - intros -> -> Hall. rewrite E. apply filter_all.
    eapply Forall_impl; [|exact Hall].
    intros c Hc. now apply in_intervalb_spec.
Qed.

(** The filter from 1 March 2024 on, with no end, over the grid of 2024. *)
Lemma handleFilter_closed_interval_witness :
  filteredCells (handleFilter Date_parse_iso "2024-03-01" "" state_2024)
  = filter (fun c => in_intervalb 1709251200000 MAX_TIME (timestamp c))
           (flatCells state_2024)
  /\ page (handleFilter Date_parse_iso "2024-03-01" "" state_2024) = 1%nat.
Proof.
  destruct (handleFilter_closed_interval
              Date_parse_iso "2024-03-01" "" (Some 1709251200000) None state_2024)
    as (E & _ & P & _ & _).
  - simpl. split; [discriminate|]. split; [reflexivity|].
    unfold time_value, MAX_TIME. lia.
  - reflexivity.
  - split; [exact E | exact P].
Defined.

(** C1 as stated fails: a grid generated half a minute after the epoch in a
    zone behind UTC holds a record of 31 December 1969; it is a valid
    instant, yet the filter with both bounds missing does not return it. *)
Lemma handleFilter_no_bounds_drops_1969 :
  flatCells state_1969 = [ {| id := "0-0"; timestamp := ValidDate (-68400000) |} ]
  /\ in_interval (- MAX_TIME) MAX_TIME (ValidDate (-68400000))
  /\ filteredCells (handleFilter Date_parse_iso "" "" state_1969) = []
  /\ filteredCells (handleFilter Date_parse_iso "" "" state_1969) <> flatCells state_1969.
Proof.
  split; [reflexivity|]. split; [simpl; unfold MAX_TIME; lia|].
  split; [reflexivity | discriminate].
Qed.

(** C4, as the code has it.  A filter submission is never rejected: it
    always yields a state with [page] 1.  An empty start or end text is the
    missing bound (the epoch, the last representable instant).  A text that
    is not empty and does not parse to a date is not taken as a missing
    bound: with such a start or such an end, no record is returned. *)
Theorem handleFilter_text_bounds
        (parse : string -> number) (start stop : string) (st : BarState) :
  page (handleFilter parse start stop st) = 1%nat
  /\ (forall hi, bound_text parse hi stop ->
        filteredCells (handleFilter parse EmptyString stop st)
        = filter (fun c => in_intervalb 0 (upper hi) (timestamp c)) (flatCells st))
  /\ (forall lo, bound_text parse lo start ->
        filteredCells (handleFilter parse start EmptyString st)
        = filter (fun c => in_intervalb (lower lo) MAX_TIME (timestamp c)) (flatCells st))
  /\ (start <> EmptyString -> parse start = NaN ->
      filteredCells (handleFilter parse start stop st) = [])
  /\ (stop <> EmptyString -> parse stop = NaN ->
      filteredCells (handleFilter parse start stop st) = []).
Proof.
  split; [reflexivity|].
  split; [intros hi Hhi; now apply (handleFilter_interval parse _ _ None hi)|].
  split; [intros lo Hlo; now apply (handleFilter_interval parse _ _ lo None)|].
  split; [apply handleFilter_bad_start | apply handleFilter_bad_stop].
Qed.

(** The start text [abc] over the grid of 2024. *)
Lemma handleFilter_text_bounds_witness :
  page (handleFilter Date_parse_iso "abc" "" state_2024) = 1%nat
  /\ filteredCells (handleFilter Date_parse_iso "abc" "" state_2024) = [].
Proof.
  destruct (handleFilter_text_bounds Date_parse_iso "abc" "" state_2024)
    as (P & _ & _ & B & _).
  split; [exact P|]. apply B; [discriminate | reflexivity].
Defined.

(** C4 as stated fails: the start text [abc] is not a date, and the filter
    does not behave as with a missing start, which returns the six records
    of the grid of 2024; it returns none. *)
Lemma handleFilter_unparseable_start_not_absent :
  Date_parse_iso "abc" = NaN
  /\ filteredCells (handleFilter Date_parse_iso "" "" state_2024) = flatCells state_2024
  /\ List.length (flatCells state_2024) = 6%nat
  /\ filteredCells (handleFilter Date_parse_iso "abc" "" state_2024) = []
  /\ filteredCells (handleFilter Date_parse_iso "abc" "" state_2024)
     <> filteredCells (handleFilter Date_parse_iso "" "" state_2024).
Proof.
  split; [reflexivity|]. split; [reflexivity|]. split; [reflexivity|].
  split; [reflexivity | discriminate].
Qed.

(** C10.  [handleFilter] computes its result from the generated dataset
    and the two bounds alone.  In every state, also one reached through any
    sequence of events, the result lists the records of the dataset whose
    timestamp lies between the bounds, in generation order; a text that is
    not a date gives the empty list in every state; and for any two texts
    the result is the same in all states that hold the same dataset, so any
    number of sort toggles before the call leaves no trace in it. *)
Theorem handleFilter_from_dataset (parse : string -> number) (start stop : string) :
  (forall lo hi,
      bound_text parse lo start -> bound_text parse hi stop ->
      forall es st,
        filteredCells (handleFilter parse start stop (run parse es st))
        = filter (fun c => in_intervalb (lower lo) (upper hi) (timestamp c))
                 (flat (fullGrid st))
        /\ (forall c,
               In c (filteredCells (handleFilter parse start stop (run parse es st)))
               <-> In c (flat (fullGrid st))
                   /\ in_interval (lower lo) (upper hi) (timestamp c)))
  /\ ((start <> EmptyString /\ parse start = NaN)
      \/ (stop <> EmptyString /\ parse stop = NaN) ->
      forall es st,
        filteredCells (handleFilter parse start stop (run parse es st)) = [])
  /\ (forall es st,
         filteredCells (handleFilter parse start stop (run parse es st))
         = filteredCells (handleFilter parse start stop st))
  /\ (forall n st,
         filteredCells (handleFilter parse start stop (Nat.iter n handleSortToggle st))
         = filteredCells (handleFilter parse start stop st))
  /\ (forall st st',
         fullGrid st = fullGrid st' ->
         filteredCells (handleFilter parse start stop st)
         = filteredCells (handleFilter parse start stop st')).
Proof.
  assert (Hsame : forall st st',
             fullGrid st = fullGrid st' ->
             filteredCells (handleFilter parse start stop st)
             = filteredCells (handleFilter parse start stop st')).
  { intros st st' E. unfold handleFilter, flatCells. cbn [filteredCells]. now rewrite E. }
  split.
  { intros lo hi Hlo Hhi es st.
    assert (E : filteredCells (handleFilter parse start stop (run parse es st))
                = filter (fun c => in_intervalb (lower lo) (upper hi) (timestamp c))
                         (flat (fullGrid st))).
    { rewrite (handleFilter_interval parse start stop lo hi _ Hlo Hhi).
      unfold flatCells. now rewrite run_fullGrid. }
    split; [exact E|].
    intros c. rewrite E, filter_In, in_intervalb_spec. reflexivity. }
  split.
  { intros [[Hne Hp]|[Hne Hp]] es st;
      [now apply handleFilter_bad_start | now apply handleFilter_bad_stop]. }
  split; [intros es st; apply Hsame, run_fullGrid|].
  split; [|exact Hsame].
  intros n st. apply Hsame.
  induction n as [|n IH]; [reflexivity | exact IH].
Qed.

(** The filter from 1 March 2024 on, after a sort click and two loaded
    pages on the grid of 2024: the four records from March on, in
    generation order. *)
Lemma handleFilter_from_dataset_witness :
  map id (filteredCells
            (handleFilter Date_parse_iso "2024-03-01" ""
               (run Date_parse_iso
                    [SortToggleClick; Scroll (Some near_bottom); Scroll (Some near_bottom)]
                    state_2024)))
  = ["0-1"; "0-2"; "1-0"; "1-2"]%string.
Proof.
  destruct (handleFilter_from_dataset Date_parse_iso "2024-03-01" "") as (H & _).
  destruct (H (Some 1709251200000) None) with
    (es := [SortToggleClick; Scroll (Some near_bottom); Scroll (Some near_bottom)])
    (st := state_2024) as [E _].
  - simpl. split; [discriminate|]. split; [reflexivity|].
    unfold time_value, MAX_TIME. lia.
  - reflexivity.
  - rewrite E. reflexivity.
Defined.

(** *** Paging and rows *)

(** C5.  For every state, the visible slice is the prefix of [filteredCells]
    of length [min (page * PAGE_SIZE) (length filteredCells)], with
    [PAGE_SIZE = 20]: it never exceeds the filtered set, and a page beyond
    the end gives the whole set, not an error. *)
Theorem visibleCells_length (st : BarState) :
  List.length (visibleCells st)
  = Nat.min (page st * PAGE_SIZE) (List.length (filteredCells st))
  /\ PAGE_SIZE = 20%nat
  /\ visibleCells st = firstn (page st * 20) (filteredCells st)
  /\ (List.length (visibleCells st) <= List.length (filteredCells st))%nat
  /\ ((List.length (filteredCells st) <= page st * PAGE_SIZE)%nat ->
      visibleCells st = filteredCells st).
Proof.
  unfold visibleCells. rewrite slice_0, length_firstn.
  split; [reflexivity|]. split; [reflexivity|]. split; [reflexivity|].
  split; [lia|]. intros H. now apply firstn_all2.
Qed.

(** Page 3 over the six records of the grid of 2024. *)
Lemma visibleCells_length_witness :
  visibleCells (nextPage (nextPage state_2024)) = filteredCells state_2024.
Proof.
  destruct (visibleCells_length (nextPage (nextPage state_2024))) as (_ & _ & _ & _ & H).
  apply H. vm_compute. lia.
Defined.

(** C6.  Loading the next page adds exactly 1 to [page], whatever the
    length of [filteredCells], and changes nothing else; [handleScroll] does
    so when the container is within 50 of its bottom.  Three loads from
    page 1 give page 4.  Past the end of the filtered set a load is not an
    error: the visible slice stays the whole filtered set. *)
Theorem nextPage_unconditional (st : BarState) :
  page (nextPage st) = (page st + 1)%nat
  /\ filteredCells (nextPage st) = filteredCells st
  /\ fullGrid (nextPage st) = fullGrid st
  /\ sortAsc (nextPage st) = sortAsc st
  /\ (forall c,
         (scrollHeight c - 50 <= scrollTop c + clientHeight c)%Q ->
         handleScroll (Some c) st = nextPage st)
  /\ (page st = 1%nat -> page (nextPage (nextPage (nextPage st))) = 4%nat)
  /\ ((List.length (filteredCells st) <= page st * PAGE_SIZE)%nat ->
      visibleCells (nextPage st) = filteredCells st
      /\ visibleCells (nextPage st) = visibleCells st).
Proof.
  repeat (split; [reflexivity|]).
  split.
  { intros c Hc. unfold handleScroll.
    apply Qle_bool_iff in Hc. now rewrite Hc. }
  split; [simpl; intros ->; reflexivity|].
  intros H. unfold visibleCells. cbn [page filteredCells nextPage].
  rewrite !slice_0, !firstn_all2 by lia. split; reflexivity.
Qed.

(** Three scrolls near the bottom from the first page of the grid of 2024,
    whose six records are all visible already. *)
Lemma nextPage_unconditional_witness :
  page (nextPage (nextPage (nextPage state_2024))) = 4%nat
  /\ handleScroll (Some near_bottom) state_2024 = nextPage state_2024
  /\ visibleCells (nextPage state_2024) = visibleCells state_2024.
Proof.
  destruct (nextPage_unconditional state_2024) as (_ & _ & _ & _ & S & P & V).
  split; [apply P; reflexivity|].
  split; [apply S; vm_compute; discriminate|].
  apply V. vm_compute. lia.
Defined.

(** C7.  The loop that builds [groupedRows] cuts the visible slice into
    consecutive rows: row [k] is the slice from [10 * k] to [10 * k + 10];
    every row but the last has 10 items and the last has between 1 and 10;
    the rows concatenated in order are the visible slice. *)
Theorem groupedRows_partition (visible : list DateCell) :
  let rows := groupedRows_from visible 0 [] in
  concat rows = visible
  /\ List.length rows = ((List.length visible + 9) / 10)%nat
  /\ (forall k, (k < List.length rows)%nat ->
        nth k rows [] = slice (10 * k) (10 * k + 10) visible
        /\ (1 <= List.length (nth k rows []) <= 10)%nat
        /\ ((S k < List.length rows)%nat -> List.length (nth k rows []) = 10%nat)).
Proof.
  intros rows. subst rows.
  split; [now rewrite groupedRows_from_concat|].
  destruct (groupedRows_from_rows visible 0 []) as (rest & E & Hlen & Hnth).
  rewrite E. cbn [app]. rewrite Nat.sub_0_r in Hlen.
  split; [exact Hlen|].
  intros k Hk. rewrite (Hnth k Hk). cbn [Nat.add].
  split; [reflexivity|].
  rewrite slice_chunk_length.
  assert (H10 : (10 * List.length rest <= List.length visible + 9)%nat).
  { rewrite Hlen. apply (Nat.Div0.mul_div_le _ 10). }
  assert (Hup : (List.length visible + 9 < 10 * S (List.length rest))%nat).
  { rewrite Hlen. apply (Nat.mul_succ_div_gt _ 10). lia. }
  split; lia.
Qed.

(** The rows of the state: the same loop on its visible slice. *)
Lemma groupedRows_partition_witness :
  concat (groupedRows state_2024) = visibleCells state_2024
  /\ List.length (groupedRows state_2024) = 1%nat.
Proof.
  destruct (groupedRows_partition (visibleCells state_2024)) as (C & L & _).
  split; [exact C | exact L].
Defined.

(** *** Sorting *)

(** C2.  A click on the sort button replaces [filteredCells] by a
    permutation of itself and flips [sortAsc]; on valid timestamps the new
    list is ordered by timestamp, latest first when the flag was set and
    earliest first otherwise.  The flag starts set, so the first click from
    the initial state, whose cells are those of the generated grid, orders
    them latest first, in a zone of one UTC offset as in a zone whose
    offset changes by at most [delta] over the year. *)
Theorem handleSortToggle_reorders (st : BarState) :
  Permutation (filteredCells (handleSortToggle st)) (filteredCells st)
  /\ sortAsc (handleSortToggle st) = negb (sortAsc st)
  /\ fullGrid (handleSortToggle st) = fullGrid st
  /\ page (handleSortToggle st) = page st
  /\ (Forall valid_cell (filteredCells st) ->
      toggled_order (sortAsc st) (filteredCells (handleSortToggle st)))
  /\ (forall grid,
         sortAsc (gridLoaded grid mount) = true
         /\ (Forall valid_cell (flat grid) ->
             descending (filteredCells (handleSortToggle (gridLoaded grid mount)))))
  /\ (forall tz now rows cols r b,
         unit_draws r ->
         startOfDay (fixed_zone tz) (new_Date (Num now)) = ValidDate b ->
         b + 365 * msPerDay <= MAX_TIME ->
         descending
           (filteredCells
              (handleSortToggle
                 (gridLoaded (fst (generateGrid (fixed_zone tz) now rows cols r)) mount))))
  /\ (forall tz now rows cols r b delta,
         unit_draws r ->
         startOfDay tz (new_Date (Num now)) = ValidDate b ->
         offset_drift tz b delta ->
         - MAX_TIME <= b - delta ->
         b + 365 * msPerDay + delta <= MAX_TIME ->
         descending
           (filteredCells
              (handleSortToggle
                 (gridLoaded (fst (generateGrid tz now rows cols r)) mount)))).
Proof.
  split; [apply sort_perm|].
  repeat (split; [reflexivity|]).
  split; [apply sort_cells_order|].
  split.
  { intros grid. split; [reflexivity|].
    intros Hv. apply (sort_cells_order true). exact Hv. }
  split.
  - intros tz now rows cols r b Hr Hb Hhigh.
    apply (sort_cells_order true).
    apply (generateGrid_valid (fixed_zone tz) now rows cols r b 0); trivial.
    + apply offset_drift_fixed.
    + pose proof (startOfDay_time_value _ _ _ Hb) as [Hlow _]. lia.
    + lia.
  - intros tz now rows cols r b delta Hr Hb Hdrift Hlow Hhigh.
    apply (sort_cells_order true).
    now apply (generateGrid_valid tz now rows cols r b delta).
Qed.

(** The first click on the grid of 2024. *)
Lemma handleSortToggle_reorders_witness :
  descending (filteredCells (handleSortToggle state_2024))
  /\ map id (filteredCells (handleSortToggle state_2024))
     = ["1-0"; "0-2"; "0-1"; "1-2"; "0-0"; "1-1"]%string.
Proof.
  destruct (handleSortToggle_reorders state_2024) as (_ & _ & _ & _ & _ & H & _).
  split; [|reflexivity].
  apply (H grid_2024).
  repeat constructor; vm_compute; intuition discriminate.
Defined.

(** C3, as the code has it.  Every click orders valid cells by timestamp
    in its direction, the second click in the direction opposite to the
    first; two clicks restore [sortAsc] and keep the membership.  They
    return the list to its original order exactly when that list was already
    ordered in the direction of the second click (ties included: the sort is
    stable), then the whole state is back; this is so in every state a click
    has produced, a third click giving again the result of the first. *)
Theorem handleSortToggle_twice (st : BarState) :
  Forall valid_cell (filteredCells st) ->
  toggled_order (sortAsc st) (filteredCells (handleSortToggle st))
  /\ toggled_order (negb (sortAsc st))
                   (filteredCells (handleSortToggle (handleSortToggle st)))
  /\ sortAsc (handleSortToggle (handleSortToggle st)) = sortAsc st
  /\ Permutation (filteredCells (handleSortToggle (handleSortToggle st)))
                 (filteredCells st)
  /\ (filteredCells (handleSortToggle (handleSortToggle st)) = filteredCells st
      <-> toggled_order (negb (sortAsc st)) (filteredCells st))
  /\ (toggled_order (negb (sortAsc st)) (filteredCells st) ->
      handleSortToggle (handleSortToggle st) = st)
  /\ handleSortToggle (handleSortToggle (handleSortToggle st)) = handleSortToggle st.
Proof.
  intros Hv. destruct st as [grid l p asc].
  unfold handleSortToggle. cbn [filteredCells sortAsc fullGrid page] in *.
  assert (Hv1 : Forall valid_cell (sort (compareCells asc) l))
    by now apply sort_cells_valid.
  assert (H2 : sort (compareCells (negb asc)) (sort (compareCells asc) l)
               = sort (compareCells (negb asc)) l)
    by now apply sort_cells_twice.
  split; [now apply sort_cells_order|].
  split; [now apply sort_cells_order|].
  split; [apply negb_involutive|].
  split; [now rewrite !sort_perm|].
  split.
  { split.
    - intros E. rewrite <- E. now apply sort_cells_order.
    - intros Ho. rewrite H2. now apply sort_cells_id. }
  split.
  { intros Ho. rewrite H2, negb_involutive. f_equal. now apply sort_cells_id. }
  rewrite !negb_involutive, H2. f_equal.
  pose proof (sort_cells_twice (negb asc) l Hv) as H3.
  rewrite negb_involutive in H3. exact H3.
Qed.

(** Two clicks in the state the first click on the grid of 2024 produced. *)
Lemma handleSortToggle_twice_witness :
  handleSortToggle (handleSortToggle (handleSortToggle state_2024))
  = handleSortToggle state_2024
  /\ descending (filteredCells (handleSortToggle state_2024)).
Proof.
  assert (Hv : Forall valid_cell (filteredCells state_2024))
    by (repeat constructor; vm_compute; intuition discriminate).
  destruct (handleSortToggle_twice state_2024 Hv) as (D & _ & _ & _ & _ & _ & T).
  split; [exact T | exact D].
Defined.

(** C3 as stated fails: from the grid of 2024 in generation order, two
    clicks leave the cells ordered earliest first, not in their original
    order. *)
Lemma handleSortToggle_twice_not_identity :
  map id (filteredCells state_2024)
  = ["0-0"; "0-1"; "0-2"; "1-0"; "1-1"; "1-2"]%string
  /\ map id (filteredCells (handleSortToggle (handleSortToggle state_2024)))
     = ["0-0"; "1-1"; "0-1"; "1-2"; "0-2"; "1-0"]%string
  /\ filteredCells (handleSortToggle (handleSortToggle state_2024))
     <> filteredCells state_2024.
Proof.
  split; [reflexivity|]. split; [reflexivity | discriminate].
Qed.

(** *** Generation *)




(** *** Statistics *)



(** ** Further properties of the generator *)

(** X1.  [generateGrid] in closed form, for every clock reading, zone and
    random source: the cell of row [i] and column [j] has the id [i-j] and
    the date that [addDays] and [addMinutes] build from the baseline and
    the floors of the draws [2 * (i * cols + j)] and the next one, times
    365 and 1440, so the draws are used row by row; the source is left
    [2 * rows * cols] draws further. *)
Theorem generateGrid_closed_form (tz : TimeZone) (now : Z) (rows cols : nat) (r : rng) :
  fst (generateGrid tz now rows cols r)
  = map (fun i =>
           map (fun j =>
                  {| id := cell_id i j;
                     timestamp :=
                       addMinutes
                         (addDays tz (startOfDay tz (new_Date (Num now)))
                                  (Math_floor (mul (r (2 * (i * cols + j))%nat) 365)))
                         (Math_floor (mul (r (2 * (i * cols + j) + 1)%nat) 1440)) |})
               (seq 0 cols))
        (seq 0 rows)
  /\ forall i, snd (generateGrid tz now rows cols r) i = r (2 * (rows * cols) + i)%nat.
Proof. exact (generateGrid_cells_at tz now rows cols r). Qed.

(** X2.  Degenerate sizes are not errors: with no row the grid is empty,
    with no column it consists of [rows] empty rows; both hold no cell and
    use no draw. *)
Theorem generateGrid_no_cells (tz : TimeZone) (now : Z) (n : nat) (r : rng) :
  fst (generateGrid tz now 0 n r) = []
  /\ fst (generateGrid tz now n 0 r) = repeat [] n
  /\ flat (fst (generateGrid tz now n 0 r)) = []
  /\ (forall i, snd (generateGrid tz now 0 n r) i = r i)
  /\ (forall i, snd (generateGrid tz now n 0 r) i = r i).
Proof.
  destruct (generateGrid_cells_at tz now n 0 r) as [E S].
  split; [reflexivity|].
  assert (E' : fst (generateGrid tz now n 0 r) = repeat [] n).
  { rewrite E. cbn [seq map]. clear. generalize 0%nat.
    induction n as [|n IH]; intros k; simpl; [reflexivity | now rewrite IH]. }
  split; [exact E'|].
  split.
  { rewrite E'. unfold flat. clear. induction n as [|n IH]; simpl; auto. }
  split; [reflexivity|].
  intros i. rewrite S. f_equal. lia.
Qed.

(** ** Further properties of the handlers *)

Lemma Permutation_filter {A : Type} (f : A -> bool) (l l' : list A) :
  Permutation l l' -> Permutation (filter f l) (filter f l').
Proof.
  induction 1 as [|x l l' _ IH|x y l|l l' l'' _ IH1 _ IH2]; simpl.
  - constructor.
  - destruct (f x); [now constructor | exact IH].
  - destruct (f x), (f y); try reflexivity. apply perm_swap.
  - now transitivity (filter f l').
Qed.

(** What every event keeps: the grid, a page from 1 on, and a list that is
    a rearranged selection of the cells of the grid. *)
Lemma handle_keeps parse grid e st :
  fullGrid st = grid ->
  (1 <= page st)%nat ->
  (exists keep, Permutation (filteredCells st) (filter keep (flat grid))) ->
  fullGrid (handle parse e st) = grid
  /\ (1 <= page (handle parse e st))%nat
  /\ (exists keep, Permutation (filteredCells (handle parse e st)) (filter keep (flat grid))).
Proof.
  intros Hg Hp [keep Hk]. destruct e as [start stop| |[c|]]; simpl.
  - split; [exact Hg|]. split; [lia|].
    eexists. unfold flatCells. rewrite Hg. reflexivity.
  - split; [exact Hg|]. split; [exact Hp|].
    exists keep. now rewrite sort_perm.
  - destruct (Qle_bool _ _); simpl; (split; [exact Hg|]); (split; [lia|]); now exists keep.
  - split; [exact Hg|]. split; [exact Hp|]. now exists keep.
Qed.

Lemma run_keeps parse grid es :
  forall st,
    fullGrid st = grid ->
    (1 <= page st)%nat ->
    (exists keep, Permutation (filteredCells st) (filter keep (flat grid))) ->
    fullGrid (run parse es st) = grid
    /\ (1 <= page (run parse es st))%nat
    /\ (exists keep, Permutation (filteredCells (run parse es st)) (filter keep (flat grid))).
Proof.
  unfold run. induction es as [|e es IH]; intros st Hg Hp Hk; simpl.
  - auto.
  - destruct (handle_keeps parse grid e st Hg Hp Hk) as (Hg' & Hp' & Hk').
    now apply IH.
Qed.

Lemma loaded_keeps grid :
  exists keep, Permutation (filteredCells (gridLoaded grid mount)) (filter keep (flat grid)).
Proof.
  exists (fun _ => true). simpl.
  rewrite PipelineFacts.filter_all; [reflexivity|].
  apply Forall_forall. reflexivity.
Qed.

(** X3.  Whatever the user does after the grid is loaded, the state keeps
    the generated grid, a page number of at least 1 and a [filteredCells]
    that is a rearrangement of a selection of the grid's cells: every cell
    shown is a cell of the dataset, none is shown more often than the
    dataset holds it, and there are never more than the dataset has. *)
Theorem run_invariant (parse : string -> number) (grid : list (list DateCell))
        (es : list Event) :
  fullGrid (run parse es (gridLoaded grid mount)) = grid
  /\ (1 <= page (run parse es (gridLoaded grid mount)))%nat
  /\ (exists keep,
         Permutation (filteredCells (run parse es (gridLoaded grid mount)))
                     (filter keep (flat grid)))
  /\ incl (filteredCells (run parse es (gridLoaded grid mount))) (flat grid)
  /\ (List.length (filteredCells (run parse es (gridLoaded grid mount)))
      <= List.length (flat grid))%nat.
Proof.
  destruct (run_keeps parse grid es (gridLoaded grid mount) eq_refl (le_n 1)
                      (loaded_keeps grid)) as (Hg & Hp & keep & Hk).
  split; [exact Hg|]. split; [exact Hp|]. split; [now exists keep|].
  split.
  - intros c Hc. eapply Permutation_in in Hc; [|exact Hk].
    apply filter_In in Hc. tauto.
  - rewrite (Permutation_length Hk). apply filter_length_le.
Qed.

Lemma NoDup_map_filter {A B : Type} (f : A -> B) (keep : A -> bool) l :
  NoDup (map f l) -> NoDup (map f (filter keep l)).
Proof.
  induction l as [|x l IH]; simpl; intros H; [constructor|].
  apply NoDup_cons_iff in H as [Hx Hl].
  destruct (keep x); [|now apply IH].
  simpl. constructor; [|now apply IH].
  intros Hin. apply Hx. apply in_map_iff in Hin as (y & E & Hy).
  apply in_map_iff. exists y. split; [exact E|]. apply filter_In in Hy. tauto.
Qed.

(** X4.  The ids stay pairwise distinct: in every state reached from a
    generated grid, of any size, clock and random source, no two cells of
    [filteredCells], hence of the visible slice and of any rendered row,
    share an id (the ids are the keys of the rendered cells). *)
Theorem run_ids_distinct (parse : string -> number) (tz : TimeZone) (now : Z)
        (nrows cols : nat) (r : rng) (es : list Event) :
  NoDup (map id (filteredCells
                   (run parse es (gridLoaded (fst (generateGrid tz now nrows cols r)) mount))))
  /\ NoDup (map id (visibleCells
                      (run parse es (gridLoaded (fst (generateGrid tz now nrows cols r)) mount))))
  /\ Forall (fun row => NoDup (map id row))
            (groupedRows
               (run parse es (gridLoaded (fst (generateGrid tz now nrows cols r)) mount))).
Proof.
  set (grid := fst (generateGrid tz now nrows cols r)).
  set (st := run parse es (gridLoaded grid mount)).
  destruct (run_keeps parse grid es (gridLoaded grid mount) eq_refl (le_n 1)
                      (loaded_keeps grid)) as (_ & _ & keep & Hk).
  fold st in Hk.
  assert (Hall : NoDup (map id (filteredCells st))).
  { eapply Permutation_NoDup; [symmetry; apply Permutation_map, Hk|].
    apply NoDup_map_filter. unfold grid. rewrite generateGrid_ids.
    apply grid_ids_NoDup. }
  assert (Hvis : NoDup (map id (visibleCells st))).
  { unfold visibleCells. rewrite slice_0.
    rewrite <- (firstn_skipn (page st * PAGE_SIZE) (filteredCells st)) in Hall.
    rewrite map_app in Hall. now apply NoDup_app_remove_r in Hall. }
  split; [exact Hall|]. split; [exact Hvis|].
  unfold groupedRows.
  pose proof (groupedRows_from_concat (visibleCells st) 0 []) as Hc.
  simpl in Hc. rewrite <- Hc in Hvis.
  revert Hvis. generalize (groupedRows_from (visibleCells st) 0 []).
  induction l as [|row l IH]; simpl; intros H; constructor.
  - rewrite map_app in H. now apply NoDup_app_remove_r in H.
  - apply IH. rewrite map_app in H. now apply NoDup_app_remove_l in H.
Qed.

Lemma run_app parse es es' st :
  run parse (es ++ es') st = run parse es' (run parse es st).
Proof. unfold run. apply fold_left_app. Qed.

(** X5.  Filters do not stack: a filter replaces the result of every
    earlier filter and forgets the pages loaded before it.  After any
    events that include no click on the sort button, a filter gives the
    very state it gives at once; submitting the same filter twice changes
    nothing. *)
Theorem handleFilter_last_wins (parse : string -> number) (start stop : string)
        (es : list Event) (st : BarState) :
  forallb (fun e => negb (is_toggle e)) es = true ->
  handleFilter parse start stop (run parse es st) = handleFilter parse start stop st
  /\ handleFilter parse start stop (handleFilter parse start stop st)
     = handleFilter parse start stop st.
Proof.
  intros Hes. split; [|reflexivity].
  revert st. induction es as [|e es IH]; intros st; [reflexivity|].
  simpl in Hes. apply andb_true_iff in Hes as [He Hes].
  change (run parse (e :: es) st) with (run parse es (handle parse e st)).
  rewrite (IH Hes).
  destruct e as [s1 s2| |[c|]]; simpl in *; try discriminate; try reflexivity.
  destruct (Qle_bool _ _); reflexivity.
Qed.

(** An earlier, narrower filter and two loaded pages leave no trace. *)
Lemma handleFilter_last_wins_witness :
  handleFilter Date_parse_iso "" ""
    (run Date_parse_iso
         [FilterSubmit "2024-03-01" "2024-09-30"; Scroll (Some near_bottom);
          Scroll (Some near_bottom)] state_2024)
  = handleFilter Date_parse_iso "" "" state_2024.
Proof.
  apply (handleFilter_last_wins Date_parse_iso "" ""
           [FilterSubmit "2024-03-01" "2024-09-30"; Scroll (Some near_bottom);
            Scroll (Some near_bottom)] state_2024).
  reflexivity.
Defined.

(** X6.  An inverted range is not an error and is not put right: when the
    start date is later than the end date, no record is returned. *)
Theorem handleFilter_inverted_range (parse : string -> number) (start stop : string)
        (a b : Z) (st : BarState) :
  bound_text parse (Some a) start ->
  bound_text parse (Some b) stop ->
  b < a ->
  filteredCells (handleFilter parse start stop st) = []
  /\ page (handleFilter parse start stop st) = 1%nat.
Proof.
  intros Ha Hb Hlt. split; [|reflexivity].
  rewrite (handleFilter_interval parse start stop (Some a) (Some b) st Ha Hb).
  apply PipelineFacts.filter_none. intros c. simpl.
  destruct (timestamp c) as [t|]; simpl; [|reflexivity].
  destruct (Z.leb_spec a t), (Z.leb_spec t b); try reflexivity; lia.
Qed.

(** September to March of 2024 over the grid of 2024. *)
Lemma handleFilter_inverted_range_witness :
  filteredCells (handleFilter Date_parse_iso "2024-09-30" "2024-03-01" state_2024) = [].
Proof.
  apply (handleFilter_inverted_range Date_parse_iso "2024-09-30" "2024-03-01"
           1727654400000 1709251200000 state_2024).
  - simpl. split; [discriminate|]. split; [reflexivity|].
    unfold time_value, MAX_TIME. lia.
  - simpl. split; [discriminate|]. split; [reflexivity|].
    unfold time_value, MAX_TIME. lia.
  - lia.
Defined.

(** X7.  Both bounds are instants, not days: with the same date text as
    start and as end, the filter keeps exactly the records whose timestamp
    is the instant the text parses to, and no other record of that day. *)
Theorem handleFilter_single_instant (parse : string -> number) (text : string)
        (t : Z) (st : BarState) :
  bound_text parse (Some t) text ->
  filteredCells (handleFilter parse text text st)
  = filter (fun c => match timestamp c with
                     | ValidDate u => u =? t
                     | InvalidDate => false
                     end) (flatCells st)
  /\ Forall (fun c => timestamp c = ValidDate t)
            (filteredCells (handleFilter parse text text st)).
Proof.
  intros Ht.
  assert (E : filteredCells (handleFilter parse text text st)
              = filter (fun c => match timestamp c with
                                 | ValidDate u => u =? t
                                 | InvalidDate => false
                                 end) (flatCells st)).
  { rewrite (handleFilter_interval parse text text (Some t) (Some t) st Ht Ht).
    apply filter_ext. intros c. simpl.
    destruct (timestamp c) as [u|]; simpl; [|reflexivity].
    destruct (Z.leb_spec t u), (Z.leb_spec u t), (Z.eqb_spec u t); try reflexivity; lia. }
  split; [exact E|].
  rewrite E. apply Forall_forall. intros c Hc. apply filter_In in Hc as [_ Hc].
  destruct (timestamp c) as [u|]; [|discriminate].
  apply Z.eqb_eq in Hc. now subst.
Qed.

(** The first of January 2024 as start and end: the cell generated for
    15:00 of that day is not kept. *)
Lemma handleFilter_single_instant_witness :
  Forall (fun c => timestamp c = ValidDate 1704067200000)
         (filteredCells (handleFilter Date_parse_iso "2024-01-01" "2024-01-01" state_2024))
  /\ filteredCells (handleFilter Date_parse_iso "2024-01-01" "2024-01-01" state_2024) = [].
Proof.
  split; [|reflexivity].
  apply (handleFilter_single_instant Date_parse_iso "2024-01-01" 1704067200000 state_2024).
  simpl. split; [discriminate|]. split; [reflexivity|].
  unfold time_value, MAX_TIME. lia.
Defined.

(** ** Further properties of paging and rows *)



Lemma firstn_add {A : Type} (n m : nat) (l : list A) :
  firstn (n + m) l = firstn n l ++ firstn m (skipn n l).
Proof.
  revert l. induction n as [|n IH]; intros l; simpl; [reflexivity|].
  destruct l as [|x l]; simpl; [now rewrite firstn_nil | now rewrite IH].
Qed.

(** X9.  Loading a page never changes what is already visible: the new
    visible slice is the old one followed by the next [PAGE_SIZE] cells of
    [filteredCells], or by as many as are left. *)
Theorem visibleCells_nextPage (st : BarState) :
  visibleCells (nextPage st)
  = visibleCells st
    ++ slice (page st * PAGE_SIZE) (page st * PAGE_SIZE + PAGE_SIZE) (filteredCells st)
  /\ List.length (visibleCells (nextPage st))
     = (List.length (visibleCells st)
        + Nat.min PAGE_SIZE (List.length (filteredCells st) - page st * PAGE_SIZE))%nat.
Proof.
  assert (E : visibleCells (nextPage st)
              = visibleCells st
                ++ slice (page st * PAGE_SIZE) (page st * PAGE_SIZE + PAGE_SIZE)
                         (filteredCells st)).
  { unfold visibleCells, slice. cbn [page filteredCells nextPage].
    rewrite !Nat.sub_0_r. cbn [skipn].
    replace ((page st + 1) * PAGE_SIZE)%nat with (page st * PAGE_SIZE + PAGE_SIZE)%nat by lia.
    rewrite firstn_add. do 2 f_equal. lia. }
  split; [exact E|].
  rewrite E, length_app. f_equal.
  unfold slice. rewrite length_firstn, length_skipn. f_equal. lia.
Qed.

Lemma chunk_of_rows (g : list (list DateCell)) :
  Forall (fun row => List.length row = 10%nat) g ->
  forall k, (k < List.length g)%nat ->
            slice (10 * k) (10 * k + 10) (concat g) = nth k g [].
Proof.
  induction 1 as [|row g Hrow _ IH]; intros k Hk; simpl in Hk; [lia|].
  destruct k as [|k]; cbn [concat nth].
  - change (slice 0 10 (row ++ concat g) = row).
    rewrite slice_0, firstn_app, Hrow, Nat.sub_diag, firstn_O, app_nil_r.
    apply firstn_all2. lia.
  - rewrite slice_chunk, skipn_app, Hrow.
    rewrite skipn_all2 by lia. cbn [app].
    replace (10 * S k - 10)%nat with (10 * k)%nat by lia.
    rewrite <- slice_chunk. apply IH. lia.
Qed.

Lemma firstn_rows (g : list (list DateCell)) :
  Forall (fun row => List.length row = 10%nat) g ->
  forall m, firstn (10 * m) (concat g) = concat (firstn m g).
Proof.
  induction 1 as [|row g Hrow _ IH]; intros m.
  - simpl. now rewrite !firstn_nil.
  - destruct m as [|m]; [reflexivity|].
    cbn [firstn concat].
    replace (10 * S m)%nat with (List.length row + 10 * m)%nat by lia.
    now rewrite firstn_app_2, IH.
Qed.

Lemma concat_rows_length (g : list (list DateCell)) :
  Forall (fun row => List.length row = 10%nat) g ->
  List.length (concat g) = (10 * List.length g)%nat.
Proof.
  induction 1 as [|row g Hrow _ IH]; simpl; [reflexivity|].
  rewrite length_app, IH, Hrow. lia.
Qed.

Lemma Forall_first {A : Type} (P : A -> Prop) (n : nat) (l : list A) :
  Forall P l -> Forall P (firstn n l).
Proof.
  intros H. rewrite <- (firstn_skipn n l) in H. now apply Forall_app in H.
Qed.

(** Cutting the concatenation of rows of ten gives the rows back. *)
Lemma regroup_rows (g : list (list DateCell)) :
  Forall (fun row => List.length row = 10%nat) g ->
  groupedRows_from (concat g) 0 [] = g.
Proof.
  intros Hg.
  destruct (groupedRows_from_rows (concat g) 0 []) as (rest & E & Hlen & Hnth).
  rewrite E. cbn [app].
  rewrite Nat.sub_0_r, (concat_rows_length g Hg) in Hlen.
  assert (Hlen' : List.length rest = List.length g).
  { rewrite Hlen. replace (10 * List.length g + 9)%nat with (9 + List.length g * 10)%nat by lia.
    rewrite Nat.div_add by lia. reflexivity. }
  apply (nth_ext _ _ [] []); [exact Hlen'|].
  intros k Hk. rewrite (Hnth k Hk). cbn [Nat.add].
  apply chunk_of_rows; [exact Hg | lia].
Qed.

(** X10.  The rows on screen are the rows of the grid, as long as the list
    is the unfiltered, unsorted dataset and the grid is ten columns wide (as
    [Bar] generates it): in page [p] the rendered rows are the first [2 * p]
    rows of the generated grid; regrouping by ten undoes the flattening. *)
Theorem groupedRows_regroup (grid : list (list DateCell)) (st : BarState) :
  Forall (fun row => List.length row = 10%nat) grid ->
  filteredCells st = flat grid ->
  groupedRows st = firstn (2 * page st) grid
  /\ groupedRows_from (flat grid) 0 [] = grid.
Proof.
  intros Hg Hst. split; [|now apply regroup_rows].
  unfold groupedRows, visibleCells. rewrite slice_0, Hst. unfold flat, PAGE_SIZE.
  replace (page st * 20)%nat with (10 * (2 * page st))%nat by lia.
  rewrite (firstn_rows grid Hg).
  apply regroup_rows. now apply Forall_first.
Qed.

(** Three rows of ten generated on 1 January 2024: the first page shows the
    first two of them. *)
Lemma groupedRows_regroup_witness :
  groupedRows (gridLoaded (fst (generateGrid (fixed_zone 0) 1704067200123 3 10 eighths)) mount)
  = firstn 2 (fst (generateGrid (fixed_zone 0) 1704067200123 3 10 eighths)).
Proof.
  apply (groupedRows_regroup (fst (generateGrid (fixed_zone 0) 1704067200123 3 10 eighths))
                             (gridLoaded (fst (generateGrid (fixed_zone 0) 1704067200123 3 10 eighths)) mount)).
  - repeat constructor.
  - reflexivity.
Defined.

(** X11.  While the filtered set is not exhausted, page [p] shows exactly
    [2 * p] rows of exactly ten cells each: a short row can only be the
    last row of an exhausted set. *)
Theorem groupedRows_full (st : BarState) :
  (page st * PAGE_SIZE <= List.length (filteredCells st))%nat ->
  List.length (groupedRows st) = (2 * page st)%nat
  /\ Forall (fun row => List.length row = 10%nat) (groupedRows st).
Proof.
  intros Hp. unfold groupedRows.
  assert (Hv : List.length (visibleCells st) = (10 * (2 * page st))%nat).
  { unfold visibleCells. rewrite slice_0, length_firstn. unfold PAGE_SIZE in *. lia. }
  destruct (groupedRows_from_rows (visibleCells st) 0 []) as (rest & E & Hlen & Hnth).
  rewrite E. cbn [app]. rewrite Nat.sub_0_r, Hv in Hlen.
  assert (Hlen' : List.length rest = (2 * page st)%nat).
  { rewrite Hlen.
    replace (10 * (2 * page st) + 9)%nat with (9 + (2 * page st) * 10)%nat by lia.
    rewrite Nat.div_add by lia. reflexivity. }
  split; [exact Hlen'|].
  apply Forall_forall. intros row Hrow.
  destruct (In_nth _ _ [] Hrow) as (k & Hk & <-).
  rewrite (Hnth k Hk). cbn [Nat.add]. rewrite slice_chunk_length. lia.
Qed.

(** Page 2 over the 30 cells of a generated grid of three rows of ten. *)
Lemma groupedRows_full_witness :
  List.length
    (groupedRows (gridLoaded (fst (generateGrid (fixed_zone 0) 1704067200123 3 10 eighths)) mount)) = 2%nat.
Proof.
  apply (groupedRows_full
           (gridLoaded (fst (generateGrid (fixed_zone 0) 1704067200123 3 10 eighths)) mount)).
  vm_compute. lia.
Defined.

(** ** Further properties of sorting *)

Lemma direction_S asc n : direction asc (S n) = negb (direction asc n).
Proof.
  unfold direction. rewrite Nat.even_succ, <- Nat.negb_even.
  destruct (Nat.even n), asc; reflexivity.
Qed.

Lemma iter_toggle_flag n st :
  sortAsc (Nat.iter n handleSortToggle st) = direction (sortAsc st) n.
Proof.
  induction n as [|n IH]; [reflexivity|].
  rewrite direction_S, <- IH. reflexivity.
Qed.

Lemma iter_toggle_list n st :
  Forall valid_cell (filteredCells st) ->
  filteredCells (Nat.iter (S n) handleSortToggle st)
  = sort (compareCells (direction (sortAsc st) n)) (filteredCells st).
Proof.
  intros Hv. induction n as [|n IH]; [reflexivity|].
  change (Nat.iter (S (S n)) handleSortToggle st)
    with (handleSortToggle (Nat.iter (S n) handleSortToggle st)).
  unfold handleSortToggle at 1. cbn [filteredCells].
  rewrite IH, iter_toggle_flag, !direction_S.
  now apply sort_cells_twice.
Qed.

(** X12.  Any number of clicks acts as a single sort: after [n + 1] clicks
    the list is the list the first click found, sorted once in the direction
    of the last click (latest first and earliest first in turn, starting
    with the flag the first click found), ties in their original order; the
    page and the grid are never touched. *)
Theorem handleSortToggle_iterated (n : nat) (st : BarState) :
  Forall valid_cell (filteredCells st) ->
  filteredCells (Nat.iter (S n) handleSortToggle st)
  = sort (compareCells (direction (sortAsc st) n)) (filteredCells st)
  /\ toggled_order (direction (sortAsc st) n)
                   (filteredCells (Nat.iter (S n) handleSortToggle st))
  /\ sortAsc (Nat.iter (S n) handleSortToggle st) = negb (direction (sortAsc st) n)
  /\ page (Nat.iter (S n) handleSortToggle st) = page st
  /\ fullGrid (Nat.iter (S n) handleSortToggle st) = fullGrid st.
Proof.
  intros Hv.
  split; [now apply iter_toggle_list|].
  split; [rewrite iter_toggle_list by exact Hv; now apply sort_cells_order|].
  split; [now rewrite iter_toggle_flag, direction_S|].
  split; induction n as [|n IH]; try reflexivity; simpl in *; exact IH.
Qed.

(** Five clicks on the grid of 2024 give what one click gives. *)
Lemma handleSortToggle_iterated_witness :
  filteredCells (Nat.iter 5 handleSortToggle state_2024)
  = filteredCells (handleSortToggle state_2024).
Proof.
  assert (Hv : Forall valid_cell (filteredCells state_2024))
    by (repeat constructor; vm_compute; intuition discriminate).
  destruct (handleSortToggle_iterated 4 state_2024 Hv) as (E & _).
  exact E.
Defined.

Lemma StronglySorted_snoc {A : Type} (R : A -> A -> Prop) l x :
  StronglySorted R l -> Forall (fun y => R y x) l -> StronglySorted R (l ++ [x]).
Proof.
  induction 1 as [|y l Hs IH Hy]; intros Hx; simpl.
  - repeat constructor.
  - apply Forall_inv in Hx as Hyx. apply Forall_inv_tail in Hx.
    constructor; [now apply IH|].
    apply Forall_app. split; [exact Hy | now constructor].
Qed.

Lemma StronglySorted_rev {A : Type} (R : A -> A -> Prop) l :
  StronglySorted R l -> StronglySorted (fun a b => R b a) (rev l).
Proof.
  induction 1 as [|x l Hs IH Hx]; simpl; [constructor|].
  apply StronglySorted_snoc; [exact IH|].
  apply Forall_rev. exact Hx.
Qed.

Lemma with_key_none {A : Type} (key : A -> Z) k l :
  ~ In k (map key l) -> with_key key k l = [].
Proof.
  unfold with_key. induction l as [|x l IH]; simpl; intros H; [reflexivity|].
  destruct (Z.eqb_spec (key x) k) as [E|_]; [exfalso; apply H; now left|].
  apply IH. intros Hin. apply H. now right.
Qed.

Lemma with_key_short {A : Type} (key : A -> Z) k l :
  NoDup (map key l) -> (List.length (with_key key k l) <= 1)%nat.
Proof.
  induction l as [|x l IH]; simpl; intros H; [lia|].
  apply NoDup_cons_iff in H as [Hx Hl].
  unfold with_key in *. simpl.
  destruct (Z.eqb_spec (key x) k) as [E|_]; [|now apply IH].
  rewrite E in Hx. pose proof (with_key_none key k l Hx) as Hnone.
  unfold with_key in Hnone. rewrite Hnone. simpl. lia.
Qed.

(** With pairwise distinct keys a list has one sorted rearrangement. *)
Lemma sorted_perm_unique {A : Type} (key : A -> Z) l1 l2 :
  StronglySorted (key_le key) l1 ->
  StronglySorted (key_le key) l2 ->
  Permutation l1 l2 ->
  NoDup (map key l1) ->
  l1 = l2.
Proof.
  intros H1 H2 Hp Hn. apply (sorted_stable_unique key); trivial.
  intros k.
  pose proof (Permutation_filter (fun x => key x =? k) _ _ Hp) as Hk.
  fold (with_key key k l1) in Hk. fold (with_key key k l2) in Hk.
  pose proof (with_key_short key k l1 Hn) as Hlen.
  destruct (with_key key k l1) as [|a [|b l]]; simpl in Hlen; [| |lia].
  - apply Permutation_nil in Hk. now rewrite Hk.
  - apply Permutation_length_1_inv in Hk. now rewrite Hk.
Qed.

(** X13.  When no two cells have the same timestamp, every click after the
    first simply reverses the list on screen. *)
Theorem handleSortToggle_reverses (st : BarState) :
  Forall valid_cell (filteredCells st) ->
  NoDup (map tv (filteredCells st)) ->
  filteredCells (handleSortToggle (handleSortToggle st))
  = rev (filteredCells (handleSortToggle st)).
Proof.
  intros Hv Hn. destruct st as [grid l p asc].
  unfold handleSortToggle. cbn [filteredCells sortAsc] in *.
  rewrite (sort_cells_twice asc l Hv).
  rewrite (sort_cells_by_key (negb asc) l Hv), (sort_cells_by_key asc l Hv).
  assert (Hneg : forall c, toggle_key (negb asc) c = - toggle_key asc c).
  { intros c. unfold toggle_key. destruct asc; simpl; lia. }
  apply (sorted_perm_unique (toggle_key (negb asc))).
  - apply sort_sorted.
  - eapply StronglySorted_ext_in; [|apply StronglySorted_rev, (sort_sorted (toggle_key asc))].
    intros x y _ _. unfold key_le. rewrite !Hneg. lia.
  - rewrite sort_perm, <- Permutation_rev, sort_perm. reflexivity.
  - eapply Permutation_NoDup; [symmetry; apply Permutation_map, sort_perm|].
    unfold toggle_key. destruct asc; simpl; [exact Hn|].
    rewrite <- (map_map tv Z.opp).
    apply Finite.Injective_map_NoDup; [|exact Hn]. intros x y. lia.
Qed.

(** The two cells of the grid of 2024 generated for May or later; their
    timestamps differ. *)
Lemma handleSortToggle_reverses_witness :
  map id (filteredCells
            (handleSortToggle
               (handleSortToggle (handleFilter Date_parse_iso "2024-05-01" "" state_2024))))
  = rev (map id (filteredCells
                   (handleSortToggle (handleFilter Date_parse_iso "2024-05-01" "" state_2024)))).
Proof.
  rewrite (handleSortToggle_reverses (handleFilter Date_parse_iso "2024-05-01" "" state_2024)).
  - apply map_rev.
  - repeat constructor; vm_compute; intuition discriminate.
  - vm_compute. repeat constructor; simpl; intuition discriminate.
Defined.

(** X14.  A click never changes the order of cells that have the same
    timestamp: for every time value [k], the cells with that time value
    come in the same order after the click as before it. *)
Theorem handleSortToggle_stable (st : BarState) (k : Z) :
  Forall valid_cell (filteredCells st) ->
  filter (fun c => tv c =? k) (filteredCells (handleSortToggle st))
  = filter (fun c => tv c =? k) (filteredCells st).
Proof.
  intros Hv. unfold handleSortToggle. cbn [filteredCells].
  rewrite sort_cells_by_key by exact Hv.
  pose proof (sort_stable (toggle_key (sortAsc st))
                          (if sortAsc st then - k else k) (filteredCells st)) as H.
  unfold with_key in H.
  assert (Hext : forall l,
             filter (fun c => tv c =? k) l
             = filter (fun c => toggle_key (sortAsc st) c
                                =? (if sortAsc st then - k else k)) l).
  { intros l. apply filter_ext. intros c. unfold toggle_key. destruct (sortAsc st);
      destruct (Z.eqb_spec (tv c) k), (Z.eqb_spec (- tv c) (- k)); try reflexivity; lia. }
  rewrite !Hext. exact H.
Qed.

(** The two cells of the grid of 2024 generated for 1 January 15:00 keep
    their order, [0-0] before [1-1], under a click. *)
Lemma handleSortToggle_stable_witness :
  map id (filter (fun c => tv c =? 1704121200000)
                 (filteredCells (handleSortToggle state_2024)))
  = ["0-0"; "1-1"]%string.
Proof.
  rewrite (handleSortToggle_stable state_2024 1704121200000).
  - reflexivity.
  - repeat constructor; vm_compute; intuition discriminate.
Defined.

(** ** Further properties of what is shown *)

(** X15.  The sort button announces what the next click does: it reads
    [Sort Descending] exactly when the flag is set, and a click then orders
    the cells latest first; it reads [Sort Ascending] otherwise, and a click
    then orders them earliest first.  Every click changes the text; a filter
    and a scroll leave it, so after a filter the text follows the clicks
    made before it, not the order of the list. *)
Theorem sortButton_announces (parse : string -> number) (st : BarState) :
  (sortButton st = "Sort Descending"%string <-> sortAsc st = true)
  /\ (sortButton st = "Sort Ascending"%string <-> sortAsc st = false)
  /\ (Forall valid_cell (filteredCells st) ->
      (sortButton st = "Sort Descending"%string ->
       descending (filteredCells (handleSortToggle st)))
      /\ (sortButton st = "Sort Ascending"%string ->
          ascending (filteredCells (handleSortToggle st))))
  /\ sortButton (handleSortToggle st) <> sortButton st
  /\ (forall start stop, sortButton (handleFilter parse start stop st) = sortButton st)
  /\ (forall current, sortButton (handleScroll current st) = sortButton st).
Proof.
  unfold sortButton.
  split; [destruct (sortAsc st); split; (discriminate || reflexivity)|].
  split; [destruct (sortAsc st); split; (discriminate || reflexivity)|].
  split.
  { intros Hv. pose proof (sort_cells_order (sortAsc st) _ Hv) as Ho.
    unfold handleSortToggle. cbn [filteredCells].
    destruct (sortAsc st); split; intros E; (discriminate E || exact Ho). }
  split; [simpl; destruct (sortAsc st); discriminate|].
  split; [reflexivity|].
  intros [c|]; simpl; [destruct (Qle_bool _ _)|]; reflexivity.
Qed.

(** The button of the grid of 2024 before any click. *)
Lemma sortButton_announces_witness :
  sortButton state_2024 = "Sort Descending"%string
  /\ descending (filteredCells (handleSortToggle state_2024)).
Proof.
  destruct (sortButton_announces Date_parse_iso state_2024) as (_ & _ & H & _).
  split; [reflexivity|].
  apply H; [|reflexivity].
  repeat constructor; vm_compute; intuition discriminate.
Defined.

(** The greatest and the least of a non-empty list of integers, as the
    folds of [Math.max] and [Math.min] find them. *)
Lemma fold_max_char t ts m :
  In m (t :: ts) -> Forall (fun x => x <= m) (t :: ts) -> fold_left Z.max ts t = m.
Proof.
  intros Hin Hall. destruct (fold_max_spec ts t) as [Hin' Hall'].
  rewrite Forall_forall in Hall, Hall'.
  pose proof (Hall _ Hin'). pose proof (Hall' _ Hin). lia.
Qed.

Lemma fold_min_char t ts m :
  In m (t :: ts) -> Forall (fun x => m <= x) (t :: ts) -> fold_left Z.min ts t = m.
Proof.
  intros Hin Hall. destruct (fold_min_spec ts t) as [Hin' Hall'].
  rewrite Forall_forall in Hall, Hall'.
  pose proof (Hall _ Hin'). pose proof (Hall' _ Hin). lia.
Qed.

Lemma StatsSection_valid_form c cs :
  Forall valid_cell (c :: cs) ->
  Stats_of (c :: cs)
  = {| count := S (List.length cs);
       minDate := new_Date (Num (fold_left Z.min (map tv cs) (tv c)));
       maxDate := new_Date (Num (fold_left Z.max (map tv cs) (tv c))) |}.
Proof.
  intros Hv. unfold Stats_of. rewrite (timestamps_valid _ Hv).
  change (map tv (c :: cs)) with (tv c :: map tv cs).
  now rewrite Math_min_Num, Math_max_Num.
Qed.

(** The statistics do not depend on the order of the cells. *)
Lemma StatsSection_perm l l' :
  Forall valid_cell l -> Permutation l l' -> Stats_of l = Stats_of l'.
Proof.
  intros Hv Hp.
  assert (Hv' : Forall valid_cell l') by (eapply Permutation_Forall; eassumption).
  destruct l as [|c cs].
  - apply Permutation_nil in Hp. now subst.
  - destruct l' as [|c' cs']; [apply Permutation_sym, Permutation_nil in Hp; discriminate|].
    rewrite !StatsSection_valid_form by assumption.
    pose proof (Permutation_map tv Hp) as Hm. simpl in Hm.
    destruct (fold_min_spec (map tv cs') (tv c')) as [Hin Hall].
    destruct (fold_max_spec (map tv cs') (tv c')) as [Hin' Hall'].
    f_equal.
    + apply Permutation_length in Hp. simpl in Hp. lia.
    + do 2 f_equal. apply fold_min_char.
      * eapply Permutation_in; [symmetry; exact Hm | exact Hin].
      * eapply Permutation_Forall; [symmetry; exact Hm | exact Hall].
    + do 2 f_equal. apply fold_max_char.
      * eapply Permutation_in; [symmetry; exact Hm | exact Hin'].
      * eapply Permutation_Forall; [symmetry; exact Hm | exact Hall'].
Qed.

(** X16.  A click on the sort button keeps the number of visible cells;
    when the whole filtered set is visible it keeps all three statistics,
    since these do not depend on the order. *)
Theorem StatsSection_after_sort (st : BarState) :
  count (Stats_of (visibleCells (handleSortToggle st)))
  = count (Stats_of (visibleCells st))
  /\ (Forall valid_cell (filteredCells st) ->
      (List.length (filteredCells st) <= page st * PAGE_SIZE)%nat ->
      Stats_of (visibleCells (handleSortToggle st)) = Stats_of (visibleCells st)).
Proof.
  split.
  - unfold Stats_of, visibleCells. cbn [count page filteredCells handleSortToggle].
    rewrite !slice_0, !length_firstn, (Permutation_length (sort_perm _ _)). reflexivity.
  - intros Hv Hp. unfold visibleCells. cbn [page filteredCells handleSortToggle].
    pose proof (Permutation_length
                  (sort_perm (compareCells (sortAsc st)) (filteredCells st))) as Hlen.
    rewrite !slice_0.
    rewrite (firstn_all2 (sort _ _)) by (rewrite Hlen; exact Hp).
    rewrite firstn_all2 by exact Hp.
    symmetry. apply StatsSection_perm; [exact Hv|]. symmetry. apply sort_perm.
Qed.

(** The statistics of the six cells of the grid of 2024, before and after
    a click. *)
Lemma StatsSection_after_sort_witness :
  Stats_of (visibleCells (handleSortToggle state_2024))
  = Stats_of (visibleCells state_2024).
Proof.
  destruct (StatsSection_after_sort state_2024) as [_ H].
  apply H.
  - repeat constructor; vm_compute; intuition discriminate.
  - vm_compute. lia.
Defined.

Lemma descending_head h l :
  Forall valid_cell (h :: l) -> descending (h :: l) ->
  Forall (fun x => x <= tv h) (map tv (h :: l)).
Proof.
  intros Hv Hd. apply StronglySorted_inv in Hd as [_ Hh].
  rewrite Forall_forall in Hv.
  apply Forall_map. constructor; [lia|].
  rewrite Forall_forall in *. intros x Hx.
  apply (time_le_tv x h); [apply Hv; now right | apply Hv; now left | now apply Hh].
Qed.

Lemma ascending_head h l :
  Forall valid_cell (h :: l) -> ascending (h :: l) ->
  Forall (fun x => tv h <= x) (map tv (h :: l)).
Proof.
  intros Hv Hd. apply StronglySorted_inv in Hd as [_ Hh].
  rewrite Forall_forall in Hv.
  apply Forall_map. constructor; [lia|].
  rewrite Forall_forall in *. intros x Hx.
  apply (time_le_tv h x); [apply Hv; now left | apply Hv; now right | now apply Hh].
Qed.

(** X17.  After a click the first page already shows the extreme of the
    whole filtered set: when the click orders latest first, the latest date
    of the statistics, computed on the visible cells only, is the latest
    date of all filtered cells, however many there are; when it orders
    earliest first, the same holds of the earliest date. *)
Theorem StatsSection_extreme_after_sort (st : BarState) :
  Forall valid_cell (filteredCells st) ->
  filteredCells st <> [] ->
  (1 <= page st)%nat ->
  (sortAsc st = true ->
   maxDate (Stats_of (visibleCells (handleSortToggle st)))
   = maxDate (Stats_of (filteredCells st)))
  /\ (sortAsc st = false ->
      minDate (Stats_of (visibleCells (handleSortToggle st)))
      = minDate (Stats_of (filteredCells st))).
Proof.
  intros Hv Hne Hp.
  pose proof (sort_cells_order (sortAsc st) _ Hv) as Ho.
  pose proof (sort_perm (compareCells (sortAsc st)) (filteredCells st)) as Hperm.
  pose proof (sort_cells_valid (compareCells (sortAsc st)) _ Hv) as Hvs.
  unfold visibleCells. cbn [page filteredCells handleSortToggle]. rewrite slice_0.
  destruct (sort (compareCells (sortAsc st)) (filteredCells st)) as [|h T] eqn:Es.
  { apply Permutation_nil in Hperm. contradiction. }
  destruct (page st * PAGE_SIZE)%nat as [|n] eqn:En; [unfold PAGE_SIZE in En; lia|].
  cbn [firstn].
  assert (Hvis : Forall valid_cell (h :: firstn n T)).
  { apply Forall_inv in Hvs as Hh. apply Forall_inv_tail in Hvs.
    constructor; [exact Hh | now apply Forall_first]. }
  destruct (filteredCells st) as [|c cs] eqn:El; [contradiction|].
  rewrite (StatsSection_valid_form h (firstn n T) Hvis).
  rewrite (StatsSection_valid_form c cs Hv). cbn [minDate maxDate].
  pose proof (Permutation_map tv Hperm) as Hm. cbn [map] in Hm.
  split; intros Hasc; rewrite Hasc in Ho; cbn [toggled_order] in Ho; do 2 f_equal.
  - pose proof (descending_head h T Hvs Ho) as Hmax. cbn [map] in Hmax.
    rewrite (fold_max_char (tv h) (map tv (firstn n T)) (tv h)).
    + symmetry. apply fold_max_char.
      * eapply Permutation_in; [exact Hm | now left].
      * eapply Permutation_Forall; [exact Hm | exact Hmax].
    + now left.
    + apply Forall_inv in Hmax as H0. apply Forall_inv_tail in Hmax.
      constructor; [exact H0|]. rewrite <- firstn_map. now apply Forall_first.
  - pose proof (ascending_head h T Hvs Ho) as Hmin. cbn [map] in Hmin.
    rewrite (fold_min_char (tv h) (map tv (firstn n T)) (tv h)).
    + symmetry. apply fold_min_char.
      * eapply Permutation_in; [exact Hm | now left].
      * eapply Permutation_Forall; [exact Hm | exact Hmin].
    + now left.
    + apply Forall_inv in Hmin as H0. apply Forall_inv_tail in Hmin.
      constructor; [exact H0|]. rewrite <- firstn_map. now apply Forall_first.
Qed.

(** Thirty generated cells, of which the first page shows twenty: after
    the first click the latest date shown is the latest of all thirty. *)
Lemma StatsSection_extreme_after_sort_witness :
  maxDate (Stats_of
             (visibleCells
                (handleSortToggle
                   (gridLoaded (fst (generateGrid (fixed_zone 0) 1704067200123 3 10 eighths)) mount))))
  = maxDate (Stats_of (flat (fst (generateGrid (fixed_zone 0) 1704067200123 3 10 eighths)))).
Proof.
  apply (StatsSection_extreme_after_sort
           (gridLoaded (fst (generateGrid (fixed_zone 0) 1704067200123 3 10 eighths)) mount)).
  - repeat constructor; vm_compute; intuition discriminate.
  - discriminate.
  - simpl. lia.
  - reflexivity.
Defined.

Lemma each_shown {A B : Type} (f : A -> outcome B) (l : list A) :
  Forall (fun x => f x <> Thrown) l -> each f l <> Thrown.
Proof.
  induction 1 as [|x l Hx _ IH]; simpl; [discriminate|].
  destruct (f x); [|contradiction]. simpl.
  destruct (each f l); [discriminate | contradiction].
Qed.

Lemma valid_cell_time_value c : valid_cell c -> time_value (tv c).
Proof.
  intros H. unfold valid_cell in H. rewrite (valid_cell_time c H) in H. exact H.
Qed.

(** On a non-empty slice of valid cells both dates of the statistics are
    valid. *)
Lemma StatsSection_dates_valid c cs :
  Forall valid_cell (c :: cs) ->
  exists lo hi,
    minDate (Stats_of (c :: cs)) = ValidDate lo /\ time_value lo
    /\ maxDate (Stats_of (c :: cs)) = ValidDate hi /\ time_value hi.
Proof.
  intros Hv. rewrite (StatsSection_valid_form c cs Hv). cbn [minDate maxDate].
  destruct (fold_min_spec (map tv cs) (tv c)) as [Hin _].
  destruct (fold_max_spec (map tv cs) (tv c)) as [Hin' _].
  change (tv c :: map tv cs) with (map tv (c :: cs)) in *.
  apply in_map_iff in Hin as (a & Ea & Ha). apply in_map_iff in Hin' as (b & Eb & Hb).
  rewrite Forall_forall in Hv.
  pose proof (valid_cell_time_value a (Hv a Ha)) as Hta.
  pose proof (valid_cell_time_value b (Hv b Hb)) as Htb.
  rewrite Ea in Hta. rewrite Eb in Htb.
  exists (fold_left Z.min (map tv cs) (tv c)), (fold_left Z.max (map tv cs) (tv c)).
  rewrite (new_Date_valid _ Hta), (new_Date_valid _ Htb).
  split; [reflexivity | split; [exact Hta | split; [reflexivity | exact Htb]]].
Qed.

(** X18.  With a [format] that throws on the Invalid Date and prints every
    valid date (as that of date-fns does), the render of [Bar] throws
    exactly when there is nothing to show: the statistics of an empty slice
    hold the Invalid Date.  So it is with the first render, before the grid
    is generated, and after any filter without a match; any state with a
    cell to show renders. *)
Theorem Bar_render_throws_iff_empty (format : Date -> outcome string) (st : BarState) :
  format InvalidDate = Thrown ->
  (forall t, time_value t -> format (ValidDate t) <> Thrown) ->
  Forall valid_cell (filteredCells st) ->
  (1 <= page st)%nat ->
  (Bar_render format st = Thrown <-> filteredCells st = [])
  /\ Bar_render format mount = Thrown.
Proof.
  intros Hinv Hval Hv Hp.
  assert (Hempty : forall s, filteredCells s = [] -> Bar_render format s = Thrown).
  { intros s Hs. unfold Bar_render, groupedRows, visibleCells.
    rewrite Hs, slice_0, firstn_nil.
    change (groupedRows_from [] 0 []) with (@nil (list DateCell)).
    cbn [each bind]. unfold StatsSection.
    change (minDate (Stats_of [])) with InvalidDate.
    now rewrite Hinv. }
  split; [|now apply Hempty].
  split; [|apply Hempty].
  intros Hthrown. destruct (filteredCells st) as [|c cs] eqn:El; [reflexivity|].
  exfalso. revert Hthrown. unfold Bar_render.
  assert (Hvv : Forall valid_cell (visibleCells st)).
  { unfold visibleCells. rewrite slice_0, El. now apply Forall_first. }
  assert (Hfmt : forall x, valid_cell x -> DateCellComponent format x <> Thrown).
  { intros x Hx. unfold DateCellComponent. rewrite (valid_cell_time x Hx).
    apply Hval. now apply valid_cell_time_value. }
  assert (Hrows : each (RowComponent format) (groupedRows st) <> Thrown).
  { apply each_shown. apply Forall_forall. intros row Hrow.
    apply each_shown. apply Forall_forall. intros x Hx.
    apply Hfmt. rewrite Forall_forall in Hvv. apply Hvv.
    pose proof (groupedRows_from_concat (visibleCells st) 0 []) as Hc.
    simpl in Hc. rewrite <- Hc. apply in_concat. exists row. split; assumption. }
  assert (Hstats : StatsSection format (visibleCells st) <> Thrown).
  { unfold visibleCells in *. rewrite slice_0, El in *.
    destruct (page st * PAGE_SIZE)%nat as [|n] eqn:En; [unfold PAGE_SIZE in En; lia|].
    cbn [firstn] in *.
    destruct (StatsSection_dates_valid c (firstn n cs) Hvv) as (lo & hi & Elo & Hlo & Ehi & Hhi).
    unfold StatsSection. rewrite Elo, Ehi.
    pose proof (Hval lo Hlo). pose proof (Hval hi Hhi).
    destruct (format (ValidDate lo)); [|contradiction].
    destruct (format (ValidDate hi)); [|contradiction].
    discriminate. }
  destruct (each (RowComponent format) (groupedRows st)); [|contradiction].
  destruct (StatsSection format (visibleCells st)); [|contradiction].
  discriminate.
Qed.

(** The grid of 2024 after a filter without a match, and the first
    render. *)
Lemma Bar_render_throws_iff_empty_witness :
  Bar_render format_time_value
             (handleFilter Date_parse_iso "2030-01-01" "" state_2024) = Thrown
  /\ Bar_render format_time_value mount = Thrown.
Proof.
  destruct (Bar_render_throws_iff_empty
              format_time_value (handleFilter Date_parse_iso "2030-01-01" "" state_2024))
    as [H M].
  - reflexivity.
  - discriminate.
  - constructor.
  - simpl. lia.
  - split; [apply H; reflexivity | exact M].
Defined.

(** ** Whole minutes *)

Lemma new_Date_time t a : new_Date (Num t) = ValidDate a -> a = t.
Proof.
  unfold new_Date, TimeClip. destruct (Z.abs t <=? MAX_TIME); [|discriminate].
  now intros [= <-].
Qed.

Lemma whole_minutes_add x y :
  x mod msPerMinute = 0 -> y mod msPerMinute = 0 -> (x + y) mod msPerMinute = 0.
Proof.
  unfold msPerMinute. intros Hx Hy.
  apply Z.mod_divide in Hx; [|lia]. apply Z.mod_divide in Hy; [|lia].
  apply Z.mod_divide; [lia|]. now apply Z.divide_add_r.
Qed.

Lemma whole_minutes_sub x y :
  x mod msPerMinute = 0 -> y mod msPerMinute = 0 -> (x - y) mod msPerMinute = 0.
Proof.
  unfold msPerMinute. intros Hx Hy.
  apply Z.mod_divide in Hx; [|lia]. apply Z.mod_divide in Hy; [|lia].
  apply Z.mod_divide; [lia|]. now apply Z.divide_sub_r.
Qed.

Lemma whole_minutes_mul k n :
  n mod msPerMinute = 0 -> (k * n) mod msPerMinute = 0.
Proof.
  unfold msPerMinute. intros Hn.
  apply Z.mod_divide in Hn; [|lia].
  apply Z.mod_divide; [lia|]. now apply Z.divide_mul_r.
Qed.

(** With whole-minute offsets, [addDays] keeps whole minutes. *)
Lemma addDays_whole_minutes tz b d a :
  minute_offsets tz ->
  b mod msPerMinute = 0 ->
  addDays tz (ValidDate b) d = ValidDate a ->
  a mod msPerMinute = 0.
Proof.
  intros Hz Hb. unfold addDays. destruct (d =? 0).
  - now intros [= <-].
  - intros E. apply new_Date_time in E. subst a.
    unfold UTC, LocalTime.
    apply whole_minutes_sub; [|apply Hz].
    apply whole_minutes_add; [apply whole_minutes_add; [exact Hb | apply Hz]|].
    apply whole_minutes_mul. reflexivity.
Qed.

(** X19.  Every generated timestamp is the date that [addDays] gives for
    the baseline and a whole number of days, from 0 to 364, plus a whole
    number of minutes, from 0 to 1439.  In a zone whose offsets are whole
    minutes its seconds and milliseconds are zero, in UTC and in local
    time; in a zone of one offset it is the baseline plus that many days of
    24 hours and that many minutes. *)
Theorem generateGrid_whole_minutes (tz : TimeZone) (now : Z) (nrows cols : nat)
        (r : rng) (b delta : Z) :
  unit_draws r ->
  startOfDay tz (new_Date (Num now)) = ValidDate b ->
  offset_drift tz b delta ->
  - MAX_TIME <= b - delta ->
  b + 365 * msPerDay + delta <= MAX_TIME ->
  Forall (fun c =>
            exists d m a,
              0 <= d <= 364 /\ 0 <= m <= 1439
              /\ addDays tz (ValidDate b) d = ValidDate a
              /\ timestamp c = ValidDate (a + m * msPerMinute))
         (flat (fst (generateGrid tz now nrows cols r)))
  /\ (minute_offsets tz ->
      Forall (fun c =>
                exists t,
                  timestamp c = ValidDate t
                  /\ t mod msPerMinute = 0
                  /\ LocalTime tz t mod msPerMinute = 0)
             (flat (fst (generateGrid tz now nrows cols r))))
  /\ (forall z, tz = fixed_zone z ->
      Forall (fun c =>
                exists d m,
                  0 <= d <= 364 /\ 0 <= m <= 1439
                  /\ timestamp c = ValidDate (b + d * msPerDay + m * msPerMinute)
                  /\ (b + d * msPerDay + m * msPerMinute + z) mod msPerMinute = 0)
             (flat (fst (generateGrid tz now nrows cols r)))).
Proof.
  intros Hr Hb Hdrift Hlow Hhigh.
  pose proof (generateGrid_dates tz now nrows cols r b delta Hr Hb Hdrift Hlow Hhigh) as Hd.
  split.
  { eapply Forall_impl; [|exact Hd].
    intros c (d & m & a & Hd' & Hm & Ea & _ & E). now exists d, m, a. }
  split.
  { intros Hz.
    destruct (startOfDay_local_midnight _ _ _ Hb) as (L & HL & _ & Eb).
    assert (Hbm : b mod msPerMinute = 0).
    { rewrite Eb. unfold UTC. apply whole_minutes_sub; [|apply Hz].
      unfold msPerDay, msPerMinute in *.
      apply Z.mod_divide in HL; [|lia]. destruct HL as [q Hq].
      replace L with (q * 1440 * 60000) by lia. apply Z.mod_mul. lia. }
    eapply Forall_impl; [|exact Hd].
    intros c (d & m & a & _ & _ & Ea & _ & E).
    pose proof (addDays_whole_minutes tz b d a Hz Hbm Ea) as Ham.
    assert (Ht : (a + m * msPerMinute) mod msPerMinute = 0).
    { apply whole_minutes_add; [exact Ham|]. apply whole_minutes_mul. reflexivity. }
    exists (a + m * msPerMinute). split; [exact E|]. split; [exact Ht|].
    unfold LocalTime. apply whole_minutes_add; [exact Ht | apply Hz]. }
  intros z ->.
  destruct (startOfDay_midnight z now b Hb) as [_ Hmid].
  eapply Forall_impl; [|exact Hd].
  intros c (d & m & a & Hd' & Hm & Ea & _ & E).
  assert (Ea' : a = b + d * msPerDay).
  { revert Ea. unfold addDays. destruct (Z.eqb_spec d 0) as [->|_].
    - intros [= <-]. lia.
    - intros Ea. apply new_Date_time in Ea. subst a.
      unfold UTC, LocalTime. cbn [fixed_zone utc_offset local_offset]. lia. }
  subst a.
  exists d, m. split; [exact Hd'|]. split; [exact Hm|]. split; [exact E|].
  unfold msPerDay, msPerMinute in *.
  apply Z.mod_divide in Hmid; [|lia]. destruct Hmid as [q Hq].
  replace (b + d * 86400000 + m * 60000 + z)
    with ((q * 1440 + d * 1440 + m) * 60000) by lia.
  apply Z.mod_mul. lia.
Qed.

(** The grid of 2024. *)
Lemma generateGrid_whole_minutes_witness :
  Forall (fun c =>
            exists d m,
              0 <= d <= 364 /\ 0 <= m <= 1439
              /\ timestamp c = ValidDate (1704067200000 + d * msPerDay + m * msPerMinute)
              /\ (1704067200000 + d * msPerDay + m * msPerMinute + 0) mod msPerMinute = 0)
         (flat grid_2024).
Proof.
  destruct (generateGrid_whole_minutes (fixed_zone 0) 1704067200123 2 3 eighths
                                       1704067200000 0) as (_ & _ & H).
  - intros i. unfold eighths. cbn [mant expo].
    pose proof (Nat.mod_upper_bound (5 * i) 8 ltac:(lia)).
    change (2 ^ 53) with 9007199254740992. change (2 ^ (- - 3)) with 8. lia.
  - reflexivity.
  - apply offset_drift_fixed.
  - unfold MAX_TIME. lia.
  - unfold msPerDay, MAX_TIME. lia.
  - exact (H 0 eq_refl).
Defined.
